(** * Women-Safety-Ai: the score calculator, trend aggregator, leaderboard
      ranker and SOS link composer of the dashboard

    The development embeds [frontend/src/data/mockData.ts], the state and
    helpers of the SOS, simulation and heatmap pages, and the client of the
    API service with its constants and hooks.

    Numbers.  A JavaScript [number] is an IEEE 754 binary64 value and is
    modelled by Rocq's primitive [float], so that [0.2], [0.15] and the sums
    built from them round exactly as they do in the browser (the simulation
    of the values 87, 9, 97, 61, 29 scores 40, where exact arithmetic would
    give 41).  Quantities that are integers by construction (string lengths,
    array indices, years) are kept in [nat] and [Z], where the arithmetic of
    the source is exact below 2^53, and enter the floats through [Z2F].

    Strings.  A JavaScript string is modelled by a Rocq [string] holding the
    UTF-8 bytes of well-formed text; its [.length], the number of UTF-16 code
    units, is [JS.length], counted on those bytes. *)

From Stdlib Require Import ZArith List Lia Bool String Ascii Floats.
From Stdlib Require Import Permutation Sorted.
From Stdlib Require Import DecimalString DecimalZ DecimalPos.
Import ListNotations.

Set Warnings "-inexact-float".

(* ================================================================== *)
(** * The number model *)
(* ================================================================== *)

Module JS.

Local Open Scope float_scope.

(** The binary64 value nearest to an integer (exact below 2^53). *)
Definition Z2F (z : Z) : float :=
  SF2Prim (binary_normalize prec emax z 0 false).

Definition N2F (n : nat) : float := Z2F (Z.of_nat n).

(** [x >= y] and [x > y] of JavaScript: false as soon as one side is NaN. *)
Definition ge (x y : float) : bool := y <=? x.
Definition gt (x y : float) : bool := y <? x.

(** [Math.round]: the integer nearest to [x], ties going towards +infinity.
    Zeros, infinities, NaN and values that are already integers are returned
    unchanged; a result of zero keeps the sign of [x].  The rounding is done
    on the exact value [m * 2^e] of the float. *)
Definition Math_round (x : float) : float :=
  match Prim2SF x with
  | S754_finite s m e =>
      if (0 <=? e)%Z then x
      else
        let n := ((cond_Zopp s (Zpos m) + 2 ^ (- e - 1)) / 2 ^ (- e))%Z in
        if (n =? 0)%Z then (if s then (-0) else 0) else Z2F n
  | _ => x
  end.

Definition is_neg_zero (x : float) : bool :=
  match classify x with NZero => true | _ => false end.

(** [Math.max] and [Math.min] of two arguments: NaN if either is NaN, and
    [+0] counts as larger than [-0]. *)
Definition Math_max (a b : float) : float :=
  if is_nan a || is_nan b then nan
  else if a <? b then b
  else if b <? a then a
  else if is_neg_zero a then b else a.

Definition Math_min (a b : float) : float :=
  if is_nan a || is_nan b then nan
  else if a <? b then a
  else if b <? a then b
  else if is_neg_zero a then a else b.

(** The remainder operator [%] on integers: the sign follows the dividend. *)
Definition rem (a b : Z) : Z := Z.rem a b.

(** [Array.prototype.map] with the callback reading the index as well. *)
Fixpoint mapi_from {A B : Type} (f : A -> nat -> B) (i : nat) (l : list A)
  : list B :=
  match l with
  | [] => []
  | a :: l' => f a i :: mapi_from f (S i) l'
  end.

Definition mapi {A B : Type} (f : A -> nat -> B) (l : list A) : list B :=
  mapi_from f 0 l.

(** [Array.prototype.sort(compare)].  The sort is stable, so for a comparator
    that orders its arguments consistently the result is the one every stable
    algorithm produces; insertion from the right is the one written here.  An
    element moves behind another only when the comparator is positive. *)
Fixpoint sort_insert {A : Type} (compare : A -> A -> float) (x : A)
  (l : list A) : list A :=
  match l with
  | [] => [x]
  | y :: l' =>
      if gt (compare x y) 0 then y :: sort_insert compare x l' else x :: l
  end.

Definition sort {A : Type} (compare : A -> A -> float) (l : list A) : list A :=
  fold_right (sort_insert compare) [] l.

(** [Array.prototype.slice(0, n)] *)
Definition slice0 {A : Type} (n : nat) (l : list A) : list A := firstn n l.

(** The UTF-16 code units a byte of UTF-8 text stands for: one for a byte
    that is a character by itself or starts a character of two or three
    bytes, two for a byte that starts a character of four bytes (a surrogate
    pair in UTF-16), none for a continuation byte. *)
Definition code_units (c : ascii) : nat :=
  let n := nat_of_ascii c in
  (if n <? 128 then 1 else if n <? 192 then 0 else if n <? 240 then 1 else 2)%nat.

(** [s.length]: the number of UTF-16 code units of the string. *)
Fixpoint length (s : string) : nat :=
  match s with
  | EmptyString => 0%nat
  | String c rest => (code_units c + length rest)%nat
  end.

End JS.

(* ================================================================== *)
(** * frontend/src/data/mockData.ts *)
(* ================================================================== *)

Module MockData.

Import JS.
Local Open Scope string_scope.

Definition INDIAN_STATES : list string :=
  [ "Andhra Pradesh"; "Arunachal Pradesh"; "Assam"; "Bihar"; "Chhattisgarh";
    "Goa"; "Gujarat"; "Haryana"; "Himachal Pradesh"; "Jharkhand";
    "Karnataka"; "Kerala"; "Madhya Pradesh"; "Maharashtra"; "Manipur";
    "Meghalaya"; "Mizoram"; "Nagaland"; "Odisha"; "Punjab"; "Rajasthan";
    "Sikkim"; "Tamil Nadu"; "Telangana"; "Tripura"; "Uttar Pradesh";
    "Uttarakhand"; "West Bengal"; "Delhi" ].

(** [Array.from({ length: 21 }, (_, i) => 2001 + i)] *)
Definition YEARS : list Z :=
  map (fun i => (2001 + Z.of_nat i)%Z) (seq 0 21).

Inductive CrimeType : Type :=
  | Rape
  | AssaultOnWomen
  | KidnappingAndAbduction
  | DomesticViolence
  | WomenTrafficking.

Definition CRIME_TYPES : list CrimeType :=
  [ Rape; AssaultOnWomen; KidnappingAndAbduction; DomesticViolence;
    WomenTrafficking ].

(** The string behind each member of the [CrimeType] union. *)
Definition crimeName (c : CrimeType) : string :=
  match c with
  | Rape => "Rape"
  | AssaultOnWomen => "Assault on Women"
  | KidnappingAndAbduction => "Kidnapping & Abduction"
  | DomesticViolence => "Domestic Violence"
  | WomenTrafficking => "Women Trafficking"
  end.

Inductive RiskLevel : Type := Low | Medium | High.

(** [score >= 70 ? "Low" : score >= 40 ? "Medium" : "High"], the expression
    shared by every scoring function of the module. *)
Definition riskOf (score : float) : RiskLevel :=
  if ge score 70 then Low else if ge score 40 then Medium else High.

Record Scored : Type := { score : float; riskLevel : RiskLevel }.

(** [calculateSafetyScore(state, year)], for an integer [year].  The seed
    and the base score are integers; the year factor is a multiple of one
    half. *)
Definition calculateSafetyScore (state : string) (year : Z) : Scored :=
  let seed := (Z.of_nat (length state) * year)%Z in
  let baseScore := (40 + rem seed 50)%Z in
  let yearFactor := (Z2F (year - 2001) * 0.5)%float in
  let score :=
    Math_min 100 (Math_max 0 (Math_round (Z2F baseScore + yearFactor)%float)) in
  let riskLevel := riskOf score in
  {| score := score; riskLevel := riskLevel |}.

(** A [Record<CrimeType, number>]: one number per crime type. *)
Record CrimeValues : Type := {
  vRape : float;
  vAssaultOnWomen : float;
  vKidnappingAndAbduction : float;
  vDomesticViolence : float;
  vWomenTrafficking : float
}.

(** [Object.entries(crimeValues)], in the key order of the object the
    simulation page builds ([DEFAULT_VALUES], kept by every spread update).
    The simulation on an object with other keys or another key order is
    [Objects.simulateSafetyScore]. *)
Definition entries (crimeValues : CrimeValues) : list (CrimeType * float) :=
  [ (Rape, vRape crimeValues);
    (AssaultOnWomen, vAssaultOnWomen crimeValues);
    (KidnappingAndAbduction, vKidnappingAndAbduction crimeValues);
    (DomesticViolence, vDomesticViolence crimeValues);
    (WomenTrafficking, vWomenTrafficking crimeValues) ].

Definition weights (c : CrimeType) : float :=
  match c with
  | Rape => 0.25
  | AssaultOnWomen => 0.2
  | KidnappingAndAbduction => 0.2
  | DomesticViolence => 0.2
  | WomenTrafficking => 0.15
  end%float.

Definition weightedSum (crimeValues : CrimeValues) : float :=
  fold_left
    (fun acc '(crime, value) => (acc + value * weights crime)%float)
    (entries crimeValues) 0%float.

Definition interpretations (r : RiskLevel) : string :=
  match r with
  | Low =>
      "The projected safety level is favorable. Standard precautions are sufficient."
  | Medium =>
      "Moderate risk detected. Enhanced awareness and safety protocols recommended."
  | High =>
      "Elevated risk scenario. Immediate safety measures and emergency contacts should be readily available."
  end.

Record Simulated : Type := {
  sim_score : float;
  sim_riskLevel : RiskLevel;
  interpretation : string
}.

(** [simulateSafetyScore(crimeValues)] *)
Definition simulateSafetyScore (crimeValues : CrimeValues) : Simulated :=
  let score := Math_round (100 - weightedSum crimeValues)%float in
  let riskLevel := riskOf score in
  {| sim_score := score;
     sim_riskLevel := riskLevel;
     interpretation := interpretations riskLevel |}.

(** ** Trend data *)

Record TrendPoint : Type := {
  year : Z;
  count : float;
  movingAvg : option float
}.

(** [data[i].count]; the indices used below are always inside the array. *)
Definition countAt (data : list TrendPoint) (i : nat) : float :=
  match nth_error data i with
  | Some item => count item
  | None => nan
  end.

Section TrendData.

(** [Math.sin] is left to the host by the language standard (its precision is
    implementation-defined), so it is a parameter of the trend generator. *)
Variable Math_sin : float -> float.

Definition trendCounts (state : string) (crimeType : CrimeType)
  : list TrendPoint :=
  let seed := (length state + length (crimeName crimeType))%nat in
  let baseCount := (500 + rem (Z.of_nat seed) 2000)%Z in
  mapi
    (fun year index =>
       let trend := (Math_sin (N2F index * 0.3) * 200)%float in
       let noise := (Math_sin (Z2F (Z.of_nat seed * year)) * 100)%float in
       let growth := (Z.of_nat index * 15)%Z in
       let count :=
         Math_max 0
           (Math_round (Z2F baseCount + trend + noise + Z2F growth)%float) in
       {| year := year; count := count; movingAvg := None |})
    YEARS.

(** The second pass of [getCrimeTrendData]: the 3-year moving average. *)
Definition withMovingAvg (data : list TrendPoint) : list TrendPoint :=
  mapi
    (fun item index =>
       if (2 <=? index)%nat then
         let avg :=
           Math_round
             ((countAt data index + countAt data (index - 1)
               + countAt data (index - 2)) / 3)%float in
         {| year := year item; count := count item; movingAvg := Some avg |}
       else item)
    data.

(** [getCrimeTrendData(state, crimeType)] *)
Definition getCrimeTrendData (state : string) (crimeType : CrimeType)
  : list TrendPoint :=
  withMovingAvg (trendCounts state crimeType).

End TrendData.

(** ** Leaderboard *)

Record Ranked : Type := {
  rank : Z;
  state : string;
  rk_score : float;
  rk_riskLevel : RiskLevel
}.

(** [INDIAN_STATES.map((state) => ({ state, ...calculateSafetyScore(state, latestYear) }))] *)
Definition statesWithScores (latestYear : Z) : list (string * Scored) :=
  map (fun state => (state, calculateSafetyScore state latestYear))
    INDIAN_STATES.

(** [getLeaderboardData()] *)
Definition getLeaderboardData : list Ranked :=
  let latestYear := 2021%Z in
  mapi
    (fun item index =>
       {| rank := (Z.of_nat index + 1)%Z;
          state := fst item;
          rk_score := score (snd item);
          rk_riskLevel := riskLevel (snd item) |})
    (slice0 10
       (sort (fun a b => (score (snd a) - score (snd b))%float)
          (statesWithScores latestYear))).

(** ** Recommendations *)

Record Recommendation : Type := {
  rec_riskLevel : RiskLevel;
  tips : list string
}.

(** [getSafetyRecommendations(score)] *)
Definition getSafetyRecommendations (score : float) : Recommendation :=
  if ge score 70 then
    {| rec_riskLevel := Low;
       tips :=
         [ "Maintain regular communication with family about your whereabouts";
           "Keep emergency contacts saved on speed dial";
           "Stay aware of your surroundings, especially in unfamiliar areas";
           "Share your live location with trusted contacts during travel";
           "Trust your instincts — if something feels wrong, leave the situation" ] |}
  else if ge score 40 then
    {| rec_riskLevel := Medium;
       tips :=
         [ "Avoid isolated areas, especially after dark";
           "Travel in groups when possible";
           "Keep your phone fully charged when going out";
           "Inform family/friends about your travel plans in advance";
           "Familiarize yourself with nearby police stations and safe zones";
           "Consider carrying personal safety devices (whistle, pepper spray where legal)";
           "Use verified transportation services and share trip details" ] |}
  else
    {| rec_riskLevel := High;
       tips :=
         [ "Limit travel to essential journeys only";
           "Always travel with trusted companions";
           "Keep emergency services numbers readily accessible";
           "Share real-time location with multiple trusted contacts";
           "Avoid public confrontations — prioritize de-escalation";
           "Know the locations of hospitals, police stations, and women's shelters";
           "Consider using SOS apps that alert multiple contacts simultaneously";
           "Have a safety plan discussed with family for emergency situations";
           "Stay connected — check in regularly with family/friends" ] |}.

End MockData.

(* ================================================================== *)
(** * frontend/src/pages/Simulation.tsx *)
(* ================================================================== *)

Module Simulation.

Import JS MockData.

Definition DEFAULT_VALUES : CrimeValues :=
  {| vRape := 50;
     vAssaultOnWomen := 50;
     vKidnappingAndAbduction := 50;
     vDomesticViolence := 50;
     vWomenTrafficking := 50 |}%float.

(** The values a [<Slider max={100} step={1} />] can hand to
    [handleSliderChange]: the integers 0, 1, ..., 100. *)
Definition sliderPositions : list float := map N2F (seq 0 101).

(** Crime values as the page can hold them: every entry a slider position. *)
Definition fromSliders (v : CrimeValues) : Prop :=
  In (vRape v) sliderPositions /\
  In (vAssaultOnWomen v) sliderPositions /\
  In (vKidnappingAndAbduction v) sliderPositions /\
  In (vDomesticViolence v) sliderPositions /\
  In (vWomenTrafficking v) sliderPositions.

End Simulation.

(* ================================================================== *)
(** * The constants of the API service *)
(* ================================================================== *)

Module Api.

Local Open Scope string_scope.

Definition AVAILABLE_STATES : list string :=
  [ "Andhra Pradesh"; "Arunachal Pradesh"; "Assam"; "Bihar"; "Chhattisgarh";
    "Delhi"; "Goa"; "Gujarat"; "Haryana"; "Himachal Pradesh";
    "Jammu & Kashmir"; "Jharkhand"; "Karnataka"; "Kerala"; "Madhya Pradesh";
    "Maharashtra"; "Manipur"; "Meghalaya"; "Mizoram"; "Nagaland"; "Odisha";
    "Punjab"; "Rajasthan"; "Sikkim"; "Tamil Nadu"; "Telangana"; "Tripura";
    "Uttar Pradesh"; "Uttarakhand"; "West Bengal" ].

End Api.

(* ================================================================== *)
(** * frontend/src/pages/SOSEmergency.tsx *)
(* ================================================================== *)

Module SOS.

Local Open Scope string_scope.

Definition nl : string := String (ascii_of_nat 10) EmptyString.

(** [a || b] on strings: the empty string is the only falsy one. *)
Definition or_else (a b : string) : string :=
  match a with
  | EmptyString => b
  | _ => a
  end.

(** [generateMessage()], with the component state it reads as arguments. *)
Definition generateMessage (userName area mapsLink : string) : string :=
  "🚨 EMERGENCY ALERT 🚨" ++ nl ++ nl
  ++ "This is " ++ or_else userName "someone"
  ++ " and I need immediate help!" ++ nl ++ nl
  ++ "📍 Location: " ++ or_else area "Unknown" ++ nl
  ++ match mapsLink with
     | EmptyString => ""
     | _ => "🗺️ Maps: " ++ mapsLink
     end
  ++ nl ++ nl
  ++ "Please call me or send help immediately. This is an emergency.".

(** The class [\d]: the ten ASCII digits. *)
Definition is_digit (c : ascii) : bool :=
  let n := nat_of_ascii c in ((48 <=? n) && (n <=? 57))%nat.

(** [phone.replace(/\D/g, "")]: every match of [\D] is replaced by the empty
    string, scanning from the left. *)
Fixpoint replace_nondigits (phone : string) : string :=
  match phone with
  | EmptyString => EmptyString
  | String c rest =>
      if is_digit c then String c (replace_nondigits rest)
      else replace_nondigits rest
  end.

(** The characters [encodeURIComponent] leaves alone:
    [A-Z a-z 0-9 - _ . ! ~ * ' ( )]. *)
Definition uri_unreserved (c : ascii) : bool :=
  let n := nat_of_ascii c in
  (((65 <=? n) && (n <=? 90)) || ((97 <=? n) && (n <=? 122))
   || ((48 <=? n) && (n <=? 57))
   || (n =? 45) || (n =? 95) || (n =? 46) || (n =? 33) || (n =? 126)
   || (n =? 42) || (n =? 39) || (n =? 40) || (n =? 41))%nat.

Definition hex_digit (n : nat) : ascii :=
  ascii_of_nat (if (n <? 10)%nat then 48 + n else 55 + n).

(** [encodeURIComponent] on well-formed text: every other character is
    replaced by the escapes [%XX] of its UTF-8 bytes. *)
Fixpoint encodeURIComponent (s : string) : string :=
  match s with
  | EmptyString => EmptyString
  | String c rest =>
      if uri_unreserved c then String c (encodeURIComponent rest)
      else
        let n := nat_of_ascii c in
        String "%"
          (String (hex_digit (n / 16))
             (String (hex_digit (n mod 16)) (encodeURIComponent rest)))
  end.

(** [getWhatsAppLink(phone)] *)
Definition getWhatsAppLink (userName area mapsLink phone : string) : string :=
  let cleanPhone := replace_nondigits phone in
  "https://wa.me/" ++ cleanPhone ++ "?text="
  ++ encodeURIComponent (generateMessage userName area mapsLink).

End SOS.

(* ================================================================== *)
(** * The operations as a caller sees them *)
(* ================================================================== *)

Module Ops.

Import JS MockData.

Inductive Failure : Type := InvalidInput | NotFound | Internal.

Inductive Outcome (A : Type) : Type :=
  | Returned (a : A)
  | Failed (f : Failure).

Arguments Returned {A} a.
Arguments Failed {A} f.

(** No function of [mockData.ts] contains a [throw] or validates its
    arguments: each call completes normally with the value computed. *)
Definition score_op (state : string) (year : Z) : Outcome Scored :=
  Returned (calculateSafetyScore state year).

Definition simulate_op (crimeValues : CrimeValues) : Outcome Simulated :=
  Returned (simulateSafetyScore crimeValues).

Definition trends_op (Math_sin : float -> float) (state : string)
  (crimeType : CrimeType) : Outcome (list TrendPoint) :=
  Returned (getCrimeTrendData Math_sin state crimeType).

Definition leaderboard_op : Outcome (list Ranked) :=
  Returned getLeaderboardData.

(** The three places where a score is handed out together with a risk
    level: the state/year score, the simulation, and the recommendations
    lookup (whose score is the one it is given). *)
Inductive ScoringCall : Type :=
  | StateYearScore (state : string) (year : Z)
  | Simulate (crimeValues : CrimeValues)
  | Recommend (score : float).

Definition scored (c : ScoringCall) : float * RiskLevel :=
  match c with
  | StateYearScore state year =>
      let r := calculateSafetyScore state year in (score r, riskLevel r)
  | Simulate crimeValues =>
      let r := simulateSafetyScore crimeValues in (sim_score r, sim_riskLevel r)
  | Recommend s => (s, rec_riskLevel (getSafetyRecommendations s))
  end.

(** The calls the pages make: the safety check selects a state of
    [INDIAN_STATES] and a year of [YEARS], the simulation and the
    recommendations page read sliders running from 0 to 100. *)
Definition fromPages (c : ScoringCall) : Prop :=
  match c with
  | StateYearScore state year => In state INDIAN_STATES /\ In year YEARS
  | Simulate crimeValues => Simulation.fromSliders crimeValues
  | Recommend s => In s Simulation.sliderPositions
  end.

End Ops.

(* ================================================================== *)
(** * The documented thresholds and the inputs of the examples *)
(* ================================================================== *)

Module Thresholds.

Import JS MockData.
Local Open Scope float_scope.

(** High below 40, Medium from 40 up to but excluding 70, Low from 70. *)
Definition risk_matches (s : float) (l : RiskLevel) : Prop :=
  (l = High <-> (s <? 40) = true) /\
  (l = Medium <-> (40 <=? s) = true /\ (s <? 70) = true) /\
  (l = Low <-> (70 <=? s) = true).

(** [0 <= s <= 100] *)
Definition in_range (s : float) : bool := (0 <=? s) && (s <=? 100).

(** The clamp of the state/year score, [Math.min(100, Math.max(0, s))]. *)
Definition clamp (s : float) : float := Math_min 100 (Math_max 0 s).

End Thresholds.

Module Inputs.

Import MockData.
Local Open Scope float_scope.

Definition allZero : CrimeValues :=
  {| vRape := 0; vAssaultOnWomen := 0; vKidnappingAndAbduction := 0;
     vDomesticViolence := 0; vWomenTrafficking := 0 |}.

Definition rapeOnly1000 : CrimeValues :=
  {| vRape := 1000; vAssaultOnWomen := 0; vKidnappingAndAbduction := 0;
     vDomesticViolence := 0; vWomenTrafficking := 0 |}.

(** The counts of the documented request [{year:2021, rape:100,
    kidnapping:50, dowry_deaths:20, assault_on_women:150,
    assault_on_minors:30, domestic_violence:80, trafficking:10}] for the five
    crime types the function has, under the function's own keys. *)
Definition documentedExample : CrimeValues :=
  {| vRape := 100; vAssaultOnWomen := 150; vKidnappingAndAbduction := 50;
     vDomesticViolence := 80; vWomenTrafficking := 10 |}.

End Inputs.

(* ================================================================== *)
(** * Finite sets of numbers, for exhaustive checks *)
(* ================================================================== *)

Module Reach.

Import JS MockData.
Local Open Scope float_scope.

(** Sets of floats are kept as lists in ascending order; [push] adds an
    element to a reversed prefix unless it repeats the last one added. *)
Definition push (x : float) (acc : list float) : list float :=
  match acc with
  | y :: _ => if Leibniz.eqb x y then acc else x :: acc
  | [] => [x]
  end.

Definition push_all (l acc : list float) : list float :=
  fold_left (fun a y => push y a) l acc.

Fixpoint union_rev (xs : list float) : list float -> list float -> list float :=
  match xs with
  | [] => fun ys acc => push_all ys acc
  | x :: xs' =>
      fix inner (ys acc : list float) : list float :=
        match ys with
        | [] => push_all xs acc
        | y :: ys' =>
            if x <? y then union_rev xs' ys (push x acc)
            else inner ys' (push y acc)
        end
  end.

Definition union (xs ys : list float) : list float :=
  rev_append (union_rev xs ys []) [].

Fixpoint rev_map (f : float -> float) (l acc : list float) : list float :=
  match l with
  | [] => acc
  | a :: l' => rev_map f l' (f a :: acc)
  end.

Definition tmap (f : float -> float) (l : list float) : list float :=
  rev_append (rev_map f l []) [].

(** All the values [acc + value * w] for [acc] in [l] and [value] a slider
    position. *)
Definition image (l : list float) (w : float) : list float :=
  fold_left
    (fun acc value => union acc (tmap (fun a => a + value * w) l))
    Simulation.sliderPositions [].

(** The accumulator values the reduction of [weightedSum] can reach, entry
    after entry, when every crime value is a slider position. *)
Definition reachable : list float :=
  fold_left (fun l crime => image l (weights crime)) CRIME_TYPES [0].

Fixpoint all_ok (P : float -> bool) (l : list float) : bool :=
  match l with
  | [] => true
  | x :: l' => if P x then all_ok P l' else false
  end.

(** What is checked of the score [Math.round(100 - weightedSum)] for each
    reachable sum: it is a number, it lies in [0,100], and clamping it to
    that interval gives a number equal to it. *)
Definition slider_score_ok (weightedSum : float) : bool :=
  let score := Math_round (100 - weightedSum) in
  negb (is_nan score) && Thresholds.in_range score
  && (Thresholds.clamp score =? score).

End Reach.

Module Checks.

Import JS MockData.
Local Open Scope float_scope.

(** What is checked of the state/year score on each pair of the reference
    data: it is a number and lies in [0,100]. *)
Definition state_year_ok (p : string * Z) : bool :=
  let s := score (calculateSafetyScore (fst p) (snd p)) in
  negb (is_nan s) && Thresholds.in_range s.

(** The names of a list that have no entry in the leaderboard. *)
Definition unranked (board : list Ranked) (states : list string)
  : list string :=
  filter
    (fun s => negb (existsb (fun e => String.eqb (state e) s) board))
    states.

End Checks.

(* ================================================================== *)
(** * The rest of mockData.ts and the pages that read it *)
(* ================================================================== *)

Module Text.

(** [String(n)] for an integer [n]: its decimal digits, with a minus sign
    when negative. *)
Definition toString (n : Z) : string :=
  DecimalString.NilZero.string_of_int (Z.to_int n).

(** A string is truthy unless it is empty. *)
Definition truthy (s : string) : bool :=
  match s with
  | EmptyString => false
  | _ => true
  end.

End Text.

Module Heatmap.

Import JS MockData.

Record HeatCell : Type := {
  state : string;
  intensity : float;
  count : float
}.

(** The callback of [INDIAN_STATES.map] in [getHeatmapData(crimeType)]. *)
Definition heatCell (crimeType : CrimeType) (state : string) : HeatCell :=
  let seed :=
    (Z.of_nat (length state)
     * Z.of_nat (length (crimeName crimeType)))%Z in
  let intensity := (Z2F (rem seed 100) / 100)%float in
  let count := Math_round (intensity * 5000 + 500)%float in
  {| state := state; intensity := intensity; count := count |}.

(** [getHeatmapData(crimeType)] *)
Definition getHeatmapData (crimeType : CrimeType) : list HeatCell :=
  map (heatCell crimeType) INDIAN_STATES.

(** Heatmap.tsx: [[...data].sort((a, b) => b.intensity - a.intensity)] *)
Definition sortedData (selectedCrime : CrimeType) : list HeatCell :=
  sort (fun a b => (intensity b - intensity a)%float)
    (getHeatmapData selectedCrime).

(** The two percentages of the card background,
    [hsl(0 ${item.intensity * 84}% ${60 - item.intensity * 30}% / 0.2)]. *)
Definition saturation (item : HeatCell) : float := (intensity item * 84)%float.
Definition lightness (item : HeatCell) : float :=
  (60 - intensity item * 30)%float.

End Heatmap.

Module Dashboard.

Import JS MockData.

(** [getNationalAverageScore()] *)
Definition getNationalAverageScore : Scored :=
  let scores :=
    map (fun state => score (calculateSafetyScore state 2021)) INDIAN_STATES in
  let avgScore :=
    Math_round
      (fold_left (fun a b => (a + b)%float) scores 0%float
       / N2F (List.length scores))%float in
  let riskLevel := riskOf avgScore in
  {| score := avgScore; riskLevel := riskLevel |}.

End Dashboard.

(* ================================================================== *)
(** * The state of the SOS page *)
(* ================================================================== *)

Module SOSPage.

Local Open Scope string_scope.

Record Contact : Type := {
  id : string;
  name : string;
  phone : string;
  selected : bool
}.

(** The six [useState] cells of the component. *)
Record State : Type := {
  userName : string;
  area : string;
  mapsLink : string;
  contacts : list Contact;
  newName : string;
  newPhone : string
}.

Definition initial : State :=
  {| userName := ""; area := ""; mapsLink := ""; contacts := [];
     newName := ""; newPhone := "" |}.

(** [addContact()], with the value of [Date.now()] as argument. *)
Definition addContact (now : Z) (s : State) : State :=
  if Text.truthy (newName s) && Text.truthy (newPhone s) then
    {| userName := userName s; area := area s; mapsLink := mapsLink s;
       contacts :=
         contacts s
         ++ [ {| id := Text.toString now; name := newName s;
                 phone := newPhone s; selected := true |} ];
       newName := ""; newPhone := "" |}
  else s.

Definition setContacts (l : list Contact) (s : State) : State :=
  {| userName := userName s; area := area s; mapsLink := mapsLink s;
     contacts := l; newName := newName s; newPhone := newPhone s |}.

(** [toggleContact(id)] *)
Definition toggleContact (i : string) (s : State) : State :=
  setContacts
    (map
       (fun c =>
          if String.eqb (id c) i then
            {| id := id c; name := name c; phone := phone c;
               selected := negb (selected c) |}
          else c)
       (contacts s))
    s.

(** [removeContact(id)] *)
Definition removeContact (i : string) (s : State) : State :=
  setContacts (filter (fun c => negb (String.eqb (id c) i)) (contacts s)) s.

(** [contacts.filter(c => c.selected)] *)
Definition selectedContacts (s : State) : list Contact :=
  filter selected (contacts s).

(** The buttons of the SOS panel, one per selected contact: the link target
    and the contact named on the button. *)
Definition sosLinks (s : State) : list (string * string) :=
  map
    (fun c =>
       (SOS.getWhatsAppLink (userName s) (area s) (mapsLink s) (phone c),
        name c))
    (selectedContacts s).

(** What the user can do on the page. *)
Inductive Event : Type :=
  | TypeUserName (v : string)
  | TypeArea (v : string)
  | TypeMapsLink (v : string)
  | TypeNewName (v : string)
  | TypeNewPhone (v : string)
  | ClickAdd (now : Z)
  | ClickToggle (i : string)
  | ClickRemove (i : string).

Definition step (s : State) (e : Event) : State :=
  match e with
  | TypeUserName v =>
      {| userName := v; area := area s; mapsLink := mapsLink s;
         contacts := contacts s; newName := newName s;
         newPhone := newPhone s |}
  | TypeArea v =>
      {| userName := userName s; area := v; mapsLink := mapsLink s;
         contacts := contacts s; newName := newName s;
         newPhone := newPhone s |}
  | TypeMapsLink v =>
      {| userName := userName s; area := area s; mapsLink := v;
         contacts := contacts s; newName := newName s;
         newPhone := newPhone s |}
  | TypeNewName v =>
      {| userName := userName s; area := area s; mapsLink := mapsLink s;
         contacts := contacts s; newName := v; newPhone := newPhone s |}
  | TypeNewPhone v =>
      {| userName := userName s; area := area s; mapsLink := mapsLink s;
         contacts := contacts s; newName := newName s; newPhone := v |}
  | ClickAdd now => addContact now s
  | ClickToggle i => toggleContact i s
  | ClickRemove i => removeContact i s
  end.

Definition run (events : list Event) (s : State) : State :=
  fold_left step events s.

(** The clock readings of the clicks on the add button. *)
Definition addTimes (events : list Event) : list Z :=
  flat_map (fun e => match e with ClickAdd now => [now] | _ => [] end) events.


(** The ids of the contacts, in list order. *)
Definition ids (s : State) : list string := map id (contacts s).

End SOSPage.

Module PageChecks.

Import JS MockData.
Local Open Scope float_scope.

(** The integers [0, 1, ..., n-1]. *)
Definition below (n : nat) : list Z := map Z.of_nat (seq 0 n).

(** What is checked of a heatmap cell for each value [k] of [seed % 100]:
    the intensity lies in [0, 0.99], the count is exactly [500 + 50 * k],
    and the two percentages of the background lie in [0, 100]. *)
Definition heat_ok (k : Z) : bool :=
  let intensity := Z2F k / 100 in
  (0 <=? intensity) && (intensity <=? 0.99)
  && Leibniz.eqb (Math_round (intensity * 5000 + 500)) (Z2F (500 + 50 * k))
  && (0 <=? intensity * 84) && (intensity * 84 <=? 100)
  && (0 <=? 60 - intensity * 30) && (60 - intensity * 30 <=? 100).

(** What is checked of the state/year score for each year and each value
    [k] of [seed % 50]: it is an integer from 40 to 99. *)
Definition base_score_ok (year k : Z) : bool :=
  let s :=
    Math_min 100
      (Math_max 0 (Math_round (Z2F (40 + k) + Z2F (year - 2001) * 0.5))) in
  (40 <=? s) && (s <=? 99) && Leibniz.eqb (Math_round s) s.

Fixpoint strongly_sortedb {A : Type} (r : A -> A -> bool) (l : list A)
  : bool :=
  match l with
  | [] => true
  | a :: l' => forallb (r a) l' && strongly_sortedb r l'
  end.

(** What is checked of the cards of the heatmap page for a crime type: they
    are in descending order of intensity and of count. *)
Definition heatmap_sorted_ok (crimeType : CrimeType) : bool :=
  strongly_sortedb
    (fun a b =>
       (Heatmap.intensity b <=? Heatmap.intensity a)
       && (Heatmap.count b <=? Heatmap.count a))
    (Heatmap.sortedData crimeType).

End PageChecks.

Module LinkChecks.

Import SOS.

(** The characters a link may hold: the unreserved ones and the five
    delimiters [% : / ? =]. *)
Definition link_char (c : ascii) : bool :=
  let n := nat_of_ascii c in
  (uri_unreserved c || (n =? 37) || (n =? 58) || (n =? 47) || (n =? 63)
   || (n =? 61))%nat.

(** The value of an upper-case hexadecimal digit. *)
Definition hex_value (c : ascii) : nat :=
  let n := nat_of_ascii c in
  if (n <? 58)%nat then n - 48 else n - 55.

(** Reading the escapes back: the inverse used to show that encoding loses
    nothing. *)
Fixpoint unescape (s : string) : string :=
  match s with
  | String "%" (String h (String l rest)) =>
      String (ascii_of_nat (16 * hex_value h + hex_value l)) (unescape rest)
  | String c rest => String c (unescape rest)
  | EmptyString => EmptyString
  end.

End LinkChecks.

(* ================================================================== *)
(** * The state of the simulation page *)
(* ================================================================== *)

Module SimulationPage.

Import JS MockData.

(** The two [useState] cells of the component. *)
Record State : Type := {
  crimeValues : CrimeValues;
  result : option Simulated
}.

Definition initial : State :=
  {| crimeValues := Simulation.DEFAULT_VALUES; result := None |}.

(** [crimeValues[crime]] *)
Definition valueOf (crime : CrimeType) (v : CrimeValues) : float :=
  match crime with
  | Rape => vRape v
  | AssaultOnWomen => vAssaultOnWomen v
  | KidnappingAndAbduction => vKidnappingAndAbduction v
  | DomesticViolence => vDomesticViolence v
  | WomenTrafficking => vWomenTrafficking v
  end.

(** [{ ...prev, [crime]: value }]: the key is one the object already has, so
    the order of the keys stays. *)
Definition assign (crime : CrimeType) (value : float) (prev : CrimeValues)
  : CrimeValues :=
  match crime with
  | Rape =>
      {| vRape := value;
         vAssaultOnWomen := vAssaultOnWomen prev;
         vKidnappingAndAbduction := vKidnappingAndAbduction prev;
         vDomesticViolence := vDomesticViolence prev;
         vWomenTrafficking := vWomenTrafficking prev |}
  | AssaultOnWomen =>
      {| vRape := vRape prev;
         vAssaultOnWomen := value;
         vKidnappingAndAbduction := vKidnappingAndAbduction prev;
         vDomesticViolence := vDomesticViolence prev;
         vWomenTrafficking := vWomenTrafficking prev |}
  | KidnappingAndAbduction =>
      {| vRape := vRape prev;
         vAssaultOnWomen := vAssaultOnWomen prev;
         vKidnappingAndAbduction := value;
         vDomesticViolence := vDomesticViolence prev;
         vWomenTrafficking := vWomenTrafficking prev |}
  | DomesticViolence =>
      {| vRape := vRape prev;
         vAssaultOnWomen := vAssaultOnWomen prev;
         vKidnappingAndAbduction := vKidnappingAndAbduction prev;
         vDomesticViolence := value;
         vWomenTrafficking := vWomenTrafficking prev |}
  | WomenTrafficking =>
      {| vRape := vRape prev;
         vAssaultOnWomen := vAssaultOnWomen prev;
         vKidnappingAndAbduction := vKidnappingAndAbduction prev;
         vDomesticViolence := vDomesticViolence prev;
         vWomenTrafficking := value |}
  end.

(** Two crime types name the same key of the object. *)
Definition sameKey (a b : CrimeType) : bool :=
  String.eqb (crimeName a) (crimeName b).

(** [handleSliderChange(crime, value)], with [value[0]] as second argument:
    the slider hands over a one-element array. *)
Definition handleSliderChange (crime : CrimeType) (value0 : float) (s : State)
  : State :=
  {| crimeValues := assign crime value0 (crimeValues s); result := result s |}.

(** [handleSimulate()] *)
Definition handleSimulate (s : State) : State :=
  let simResult := simulateSafetyScore (crimeValues s) in
  {| crimeValues := crimeValues s; result := Some simResult |}.

(** [handleReset()] *)
Definition handleReset (s : State) : State :=
  {| crimeValues := Simulation.DEFAULT_VALUES; result := None |}.

(** What the user can do on the page. *)
Inductive Event : Type :=
  | MoveSlider (crime : CrimeType) (value0 : float)
  | ClickSimulate
  | ClickReset.

Definition step (s : State) (e : Event) : State :=
  match e with
  | MoveSlider crime value0 => handleSliderChange crime value0 s
  | ClickSimulate => handleSimulate s
  | ClickReset => handleReset s
  end.

Definition run (events : list Event) (s : State) : State :=
  fold_left step events s.

(** The slider of the page only stops at its positions. *)
Definition fromSlider (e : Event) : Prop :=
  match e with
  | MoveSlider _ value0 => In value0 Simulation.sliderPositions
  | _ => True
  end.

Definition isMove (e : Event) : bool :=
  match e with
  | MoveSlider _ _ => true
  | _ => false
  end.

(** The values are slider positions, and so were those a result on display
    was computed from. *)
Definition shown_from_sliders (s : State) : Prop :=
  Simulation.fromSliders (crimeValues s)
  /\ forall r, result s = Some r ->
       exists v, Simulation.fromSliders v /\ r = simulateSafetyScore v.

End SimulationPage.

(* ================================================================== *)
(** * The crime values as a JavaScript object *)
(* ================================================================== *)

Module Objects.

Import JS MockData.
Local Open Scope string_scope.

(** An object with number values, given by the list [Object.entries] makes
    of it: its own properties in insertion order, no key twice.  (Keys that
    are array indices would be listed first; none is used here.) *)
Definition Obj : Type := list (string * float).

(** [o[key]] for an own property, [None] standing for [undefined]. *)
Fixpoint get (key : string) (o : Obj) : option float :=
  match o with
  | [] => None
  | (k, x) :: rest => if String.eqb k key then Some x else get key rest
  end.

(** [{ ...prev, [key]: value }]: a key the object has keeps its place, a new
    key goes last. *)
Fixpoint assign (key : string) (value : float) (prev : Obj) : Obj :=
  match prev with
  | [] => [(key, value)]
  | (k, x) :: rest =>
      if String.eqb k key then (k, value) :: rest
      else (k, x) :: assign key value rest
  end.

(** The object literal [weights] of [simulateSafetyScore]. *)
Definition weights : Obj :=
  [ ("Rape", 0.25); ("Assault on Women", 0.2);
    ("Kidnapping & Abduction", 0.2); ("Domestic Violence", 0.2);
    ("Women Trafficking", 0.15) ]%float.

(** [value * weights[crime]].  For a key that is no crime type,
    [weights[crime]] is [undefined] or something inherited from
    [Object.prototype]; the product with either is NaN. *)
Definition weighted (crime : string) (value : float) : float :=
  match get crime weights with
  | Some w => (value * w)%float
  | None => nan
  end.

(** The reduction over [Object.entries(crimeValues)], in the order of the
    entries. *)
Definition weightedSum (crimeValues : Obj) : float :=
  fold_left
    (fun acc '(crime, value) => (acc + weighted crime value)%float)
    crimeValues 0%float.

(** [simulateSafetyScore(crimeValues)] on any object. *)
Definition simulateSafetyScore (crimeValues : Obj) : Simulated :=
  let score := Math_round (100 - weightedSum crimeValues)%float in
  let riskLevel := riskOf score in
  {| sim_score := score;
     sim_riskLevel := riskLevel;
     interpretation := interpretations riskLevel |}.

(** The object with the five crime types as keys, in the order of their
    declaration, holding the given values. *)
Definition ofValues (v : CrimeValues) : Obj :=
  map (fun '(crime, value) => (crimeName crime, value)) (entries v).

(** [DEFAULT_VALUES] of the simulation page. *)
Definition DEFAULT_VALUES : Obj :=
  [ ("Rape", 50); ("Assault on Women", 50); ("Kidnapping & Abduction", 50);
    ("Domestic Violence", 50); ("Women Trafficking", 50) ]%float.



(** The documented request of the simulate operation. *)
Definition documentedRequest : Obj :=
  [ ("year", 2021); ("rape", 100); ("kidnapping", 50); ("dowry_deaths", 20);
    ("assault_on_women", 150); ("assault_on_minors", 30);
    ("domestic_violence", 80); ("trafficking", 10) ]%float.



End Objects.

Module SliderChecks.

Import JS MockData.
Local Open Scope float_scope.

(** Every value of [v] is at most the value [v'] has for the same crime. *)
Definition noneHigher (v v' : CrimeValues) : Prop :=
  (vRape v <=? vRape v') = true /\
  (vAssaultOnWomen v <=? vAssaultOnWomen v') = true /\
  (vKidnappingAndAbduction v <=? vKidnappingAndAbduction v') = true /\
  (vDomesticViolence v <=? vDomesticViolence v') = true /\
  (vWomenTrafficking v <=? vWomenTrafficking v') = true.

(** [r] holds between each element of the list and the next one. *)
Fixpoint chain {A : Type} (r : A -> A -> bool) (l : list A) : bool :=
  match l with
  | a :: l' =>
      match l' with
      | b :: _ => if r a b then chain r l' else false
      | [] => true
      end
  | [] => true
  end.

(** The accumulator values the reduction of [weightedSum] can reach after
    its first [n] entries, when every crime value is a slider position. *)
Definition stage (n : nat) : list float :=
  fold_left (fun l crime => Reach.image l (weights crime))
    (firstn n CRIME_TYPES) [0].

(** What is checked of one step [acc + value * w] of the reduction: over
    the accumulators of the list, taken in ascending order, and for each
    slider position, the step keeps the order and gives a number. *)
Definition acc_ok (l : list float) (w : float) : bool :=
  Reach.all_ok
    (fun value =>
       chain (fun a b => (a <? b) && (a + value * w <=? b + value * w)) l
       && Reach.all_ok (fun a => let x := a + value * w in x <=? x) l)
    Simulation.sliderPositions.

(** And for each accumulator of the list, over the slider positions taken
    in ascending order, the step keeps the order. *)
Definition value_ok (l : list float) (w : float) : bool :=
  Reach.all_ok
    (fun a =>
       chain (fun v v' => (v <? v') && (a + v * w <=? a + v' * w))
         Simulation.sliderPositions)
    l.

Definition stage_ok (n : nat) (crime : CrimeType) : bool :=
  let l := stage n in
  acc_ok l (weights crime) && value_ok l (weights crime).

(** What is checked of the score over the weighted sums, taken in ascending
    order: a larger sum never gives a larger score. *)
Definition score_order_ok (l : list float) : bool :=
  chain
    (fun a b => (a <? b) && (Math_round (100 - b) <=? Math_round (100 - a))) l
  && Reach.all_ok (fun a => let x := Math_round (100 - a) in x <=? x) l.

End SliderChecks.

(* ================================================================== *)
(** * The client of the REST service and its hooks *)
(* ================================================================== *)

Module ApiClient.

Local Open Scope string_scope.

(** What is thrown, or what a promise is rejected with: an [Error] with its
    message, or some other value. *)
Inductive Thrown : Type :=
  | ErrorValue (message : string)
  | OtherValue.

(** How a promise settles. *)
Inductive Settled (T : Type) : Type :=
  | Fulfilled (v : T)
  | Rejected (e : Thrown).

Arguments Fulfilled {T} v.
Arguments Rejected {T} e.

(** [await p] followed by the rest of an [async] body. *)
Definition await {A B : Type} (p : Settled A) (k : A -> Settled B)
  : Settled B :=
  match p with
  | Fulfilled v => k v
  | Rejected e => Rejected e
  end.

(** [try { body } catch (error) { handler }] *)
Definition try_catch {A : Type} (body : Settled A)
    (handler : Thrown -> Settled A) : Settled A :=
  match body with
  | Fulfilled v => Fulfilled v
  | Rejected e => handler e
  end.

(** What evaluating [error.detail] on a parsed body comes to.  Reading a
    property of [null] throws a [TypeError], with the message the engine
    gives it.  Otherwise the value read is falsy (missing, [null], [false],
    [0] or the empty string) or truthy, and [new Error] then makes a message
    of it: the detail itself when it is a string, its conversion to a string
    when it is an array, an object, a number or [true]. *)
Inductive Detail : Type :=
  | Throws (message : string)
  | Falsy
  | Truthy (text : string).

(** The part of a [Response] the client reads; [Json] is what its body
    parses to. *)
Record Response (Json : Type) : Type := {
  ok : bool;
  status : Z;
  statusText : string;
  json : Settled Json
}.

Arguments ok {Json} r.
Arguments status {Json} r.
Arguments statusText {Json} r.
Arguments json {Json} r.

(** The endpoint [getLeaderboard(year)] asks for; the year is an integer or
    is not given. *)
Definition leaderboardEndpoint (year : option Z) : string :=
  let params :=
    match year with
    | Some y => if (y =? 0)%Z then "" else "?year=" ++ Text.toString y
    | None => ""
    end in
  "/leaderboard" ++ params.

Section Client.

Variable Json : Type.

(** [error.detail] on each parsed body. *)
Variable detail : Json -> Detail.

(** [import.meta.env.VITE_API_URL], empty when not set. *)
Variable VITE_API_URL : string.

(** What [fetch] settles to for each URL. *)
Variable fetch : string -> Settled (Response Json).

Definition API_BASE_URL : string :=
  SOS.or_else VITE_API_URL "http://localhost:8000".

(** [apiFetch(endpoint)] *)
Definition apiFetch (endpoint : string) : Settled Json :=
  let url := API_BASE_URL ++ endpoint in
  try_catch
    (await (fetch url) (fun response =>
       if negb (ok response) then
         await (json response) (fun error =>
           match detail error with
           | Throws message => Rejected (ErrorValue message)
           | Truthy text => Rejected (ErrorValue text)
           | Falsy =>
               Rejected
                 (ErrorValue
                    ("HTTP " ++ Text.toString (status response) ++ ": "
                     ++ statusText response))
           end)
       else json response))
    (fun error =>
       match error with
       | ErrorValue _ => Rejected error
       | OtherValue => Rejected (ErrorValue "An unknown error occurred")
       end).

(** [healthCheck()] *)
Definition healthCheck : Settled Json := apiFetch "/health".

(** [getLeaderboard(year)] *)
Definition getLeaderboard (year : option Z) : Settled Json :=
  apiFetch (leaderboardEndpoint year).

End Client.

End ApiClient.

Module UseApi.

Import ApiClient.
Local Open Scope string_scope.

(** [UseApiState<T>] *)
Record UseApiState (T : Type) : Type := {
  data : option T;
  loading : bool;
  error : option string
}.

Arguments data {T} u.
Arguments loading {T} u.
Arguments error {T} u.

Section Hook.

Variable T : Type.

Definition initial : UseApiState T :=
  {| data := None; loading := false; error := None |}.

(** The state set when a call starts. *)
Definition started : UseApiState T :=
  {| data := None; loading := true; error := None |}.

(** The state set when the awaited call has settled. *)
Definition settled (outcome : Settled T) : UseApiState T :=
  match outcome with
  | Fulfilled d => {| data := Some d; loading := false; error := None |}
  | Rejected err =>
      let error :=
        match err with
        | ErrorValue message => message
        | OtherValue => "Unknown error"
        end in
      {| data := None; loading := false; error := Some error |}
  end.

(** [clearError()] *)
Definition clearError (prev : UseApiState T) : UseApiState T :=
  {| data := data prev; loading := loading prev; error := None |}.

(** What happens to the state of a hook: a call starts, a call that was
    started settles, or the error is cleared. *)
Inductive Event : Type :=
  | Start
  | Settle (outcome : Settled T)
  | ClearError.

Definition step (s : UseApiState T) (e : Event) : UseApiState T :=
  match e with
  | Start => started
  | Settle outcome => settled outcome
  | ClearError => clearError s
  end.

Definition run (events : list Event) (s : UseApiState T) : UseApiState T :=
  fold_left step events s.

End Hook.

Arguments Start {T}.
Arguments Settle {T} outcome.
Arguments ClearError {T}.

End UseApi.

(* ================================================================== *)
(** * Properties *)
(* ================================================================== *)

Import JS MockData.

Section NumberExamples.

Local Open Scope float_scope.

Example Math_round_ties_upwards :
  Math_round 17.5 = 18 /\ Math_round 2.5 = 3 /\ Math_round (-2.5) = -2
  /\ Math_round (-0.5) = -0 /\ Math_round 0.49999999999999994 = 0
  /\ Math_round 82.4 = 82 /\ Math_round (-150) = -150.
Proof. repeat split; vm_compute; reflexivity. Qed.

Example Math_max_min_zero_and_nan :
  Math_max 0 (-3) = 0 /\ Math_min 100 250 = 100 /\ Math_max 0 57 = 57
  /\ is_nan (Math_max 0 nan) = true /\ is_nan (Math_min 100 nan) = true.
Proof. repeat split; vm_compute; reflexivity. Qed.

(** Binary64 rounding is visible in the simulation: the exact weighted sum
    of these values is 59.5, the computed one lies just above it, and the
    score is 40 rather than 41. *)
Example simulation_rounds_in_binary64 :
  let v := {| vRape := 87; vAssaultOnWomen := 9;
              vKidnappingAndAbduction := 97; vDomesticViolence := 61;
              vWomenTrafficking := 29 |} in
  (59.5 <? weightedSum v) = true /\ sim_score (simulateSafetyScore v) = 40.
Proof. split; vm_compute; reflexivity. Qed.

End NumberExamples.

Section ReachLemmas.

Import Reach.
Local Open Scope float_scope.

Lemma push_keeps : forall x acc z, In z acc -> In z (push x acc).
Proof.
  intros x [|y acc] z H; simpl; [destruct H|].
  destruct (Leibniz.eqb x y); [exact H | right; exact H].
Qed.

Lemma push_adds : forall x acc, In x (push x acc).
Proof.
  intros x [|y acc]; simpl; [left; reflexivity|].
  destruct (Leibniz.eqb x y) eqn:E.
  - apply FloatAxioms.Leibniz.eqb_spec in E. subst y. left; reflexivity.
  - left; reflexivity.
Qed.

Lemma push_all_in : forall l acc z,
  In z l \/ In z acc -> In z (push_all l acc).
Proof.
  unfold push_all.
  induction l as [|y l IH]; intros acc z H; simpl.
  - destruct H as [[]|H]; exact H.
  - apply IH. destruct H as [[->|H]|H].
    + right; apply push_adds.
    + left; exact H.
    + right; apply push_keeps; exact H.
Qed.

Lemma union_rev_in : forall xs ys acc z,
  In z xs \/ In z ys \/ In z acc -> In z (union_rev xs ys acc).
Proof.
  induction xs as [|x xs IHx]; intros ys acc z H.
  - change (union_rev [] ys acc) with (push_all ys acc).
    apply push_all_in. destruct H as [[]|H]; exact H.
  - revert acc H. induction ys as [|y ys IHy]; intros acc H.
    + change (union_rev (x :: xs) [] acc) with (push_all (x :: xs) acc).
      apply push_all_in.
      destruct H as [H|[[]|H]]; [left; exact H | right; exact H].
    + change (union_rev (x :: xs) (y :: ys) acc)
        with (if x <? y then union_rev xs (y :: ys) (push x acc)
              else union_rev (x :: xs) ys (push y acc)).
      destruct (x <? y).
      * apply IHx. destruct H as [[->|H]|[H|H]].
        -- right; right; apply push_adds.
        -- left; exact H.
        -- right; left; exact H.
        -- right; right; apply push_keeps; exact H.
      * apply IHy. destruct H as [H|[[->|H]|H]].
        -- left; exact H.
        -- right; right; apply push_adds.
        -- right; left; exact H.
        -- right; right; apply push_keeps; exact H.
Qed.

Lemma union_in : forall xs ys z, In z xs \/ In z ys -> In z (union xs ys).
Proof.
  intros xs ys z H. unfold union.
  rewrite rev_append_rev, app_nil_r. apply in_rev. rewrite rev_involutive.
  apply union_rev_in. tauto.
Qed.

Lemma rev_map_in : forall f l acc z,
  (exists a, In a l /\ z = f a) \/ In z acc -> In z (rev_map f l acc).
Proof.
  induction l as [|a l IH]; intros acc z H; simpl.
  - destruct H as [[a [[] _]]|H]; exact H.
  - apply IH. destruct H as [[b [[->|Hb] ->]]|H].
    + right; left; reflexivity.
    + left; exists b; split; [exact Hb | reflexivity].
    + right; right; exact H.
Qed.

Lemma tmap_in : forall f l a, In a l -> In (f a) (tmap f l).
Proof.
  intros f l a H. unfold tmap.
  rewrite rev_append_rev, app_nil_r. apply in_rev. rewrite rev_involutive.
  apply rev_map_in. left. exists a. split; [exact H | reflexivity].
Qed.

Lemma image_in : forall l w a value,
  In a l -> In value Simulation.sliderPositions ->
  In (a + value * w) (image l w).
Proof.
  intros l w a value Ha. unfold image.
  generalize Simulation.sliderPositions. intros grid.
  assert (keep : forall g acc z, In z acc ->
            In z (fold_left
                    (fun acc value => union acc (tmap (fun a => a + value * w) l))
                    g acc)).
  { induction g as [|v g IH]; intros acc z Hz; simpl; [exact Hz|].
    apply IH. apply union_in. left; exact Hz. }
  assert (gen : forall g acc, In value g ->
            In (a + value * w)
              (fold_left
                 (fun acc value => union acc (tmap (fun a => a + value * w) l))
                 g acc)).
  { induction g as [|v g IH]; intros acc Hv; simpl; [destruct Hv|].
    destruct Hv as [->|Hv].
    - apply keep. apply union_in. right.
      apply (tmap_in (fun a => a + value * w)). exact Ha.
    - apply IH. exact Hv. }
  intros Hv. apply gen. exact Hv.
Qed.

Lemma all_ok_In : forall P l x, all_ok P l = true -> In x l -> P x = true.
Proof.
  induction l as [|y l IH]; intros x H Hx; simpl in *; [destruct Hx|].
  destruct (P y) eqn:E; [|discriminate].
  destruct Hx as [->|Hx]; [exact E | apply IH; assumption].
Qed.

Lemma weightedSum_reachable : forall v,
  Simulation.fromSliders v -> In (weightedSum v) reachable.
Proof.
  intros v (Hr & Ha & Hk & Hd & Ht).
  change reachable
    with (image (image (image (image (image [0] 0.25) 0.2) 0.2) 0.2) 0.15).
  unfold weightedSum, entries. cbn [fold_left weights].
  do 5 (apply image_in; [|assumption]).
  left; reflexivity.
Qed.

Lemma reachable_scores_checked : all_ok slider_score_ok reachable = true.
Proof. vm_compute. reflexivity. Qed.

End ReachLemmas.

Section Comparisons.

Local Open Scope float_scope.

Lemma SFcompare_antisym : forall x y,
  SFcompare x y = option_map CompOpp (SFcompare y x).
Proof.
  intros [[]|[]| |[] m1 e1] [[]|[]| |[] m2 e2]; simpl; try reflexivity;
    rewrite (Z.compare_antisym e1 e2); destruct (e1 ?= e2)%Z; simpl;
    try reflexivity;
    change (Pos.compare_cont Eq m2 m1) with (Pos.compare m2 m1);
    change (Pos.compare_cont Eq m1 m2) with (Pos.compare m1 m2);
    rewrite (Pos.compare_antisym m1 m2);
    try rewrite CompOpp_involutive; reflexivity.
Qed.

Lemma is_nan_SF : forall s, is_nan s = false -> Prim2SF s <> S754_nan.
Proof.
  intros s H E. unfold is_nan in H. rewrite FloatAxioms.eqb_spec, E in H. discriminate.
Qed.

(** For two numbers, [a <= b] fails exactly when [b < a]. *)
Lemma leb_ltb : forall a b,
  is_nan a = false -> is_nan b = false -> (a <=? b) = negb (b <? a).
Proof.
  intros a b Ha Hb. apply is_nan_SF in Ha. apply is_nan_SF in Hb.
  rewrite leb_spec, ltb_spec. unfold SFleb, SFltb.
  rewrite (SFcompare_antisym (Prim2SF a) (Prim2SF b)).
  destruct (SFcompare (Prim2SF b) (Prim2SF a)) as [[]|] eqn:E; try reflexivity.
  exfalso.
  destruct (Prim2SF a) as [[]|[]| |[] ? ?]; destruct (Prim2SF b) as [[]|[]| |[] ? ?];
    simpl in E; try discriminate; congruence.
Qed.

Lemma Prim2SF_40 : Prim2SF 40 = S754_finite false 5629499534213120 (-47).
Proof. vm_compute. reflexivity. Qed.

Lemma Prim2SF_70 : Prim2SF 70 = S754_finite false 4925812092436480 (-46).
Proof. vm_compute. reflexivity. Qed.

Lemma ltb_40_70 : forall s, (s <? 40) = true -> (s <? 70) = true.
Proof.
  intros s. rewrite !ltb_spec, Prim2SF_40, Prim2SF_70. unfold SFltb, SFcompare.
  destruct (Prim2SF s) as [[]|[]| |[] m e]; try (intro; reflexivity);
    try discriminate.
  destruct (Z.compare_spec e (-47)) as [->|Hlt|Hgt]; try discriminate.
  - intros _. reflexivity.
  - intros _. destruct (Z.compare_spec e (-46)); first [reflexivity | lia].
Qed.

(** The numbers equal to zero are [+0] and [-0]. *)
Lemma eqb_zero_cases : forall x, (x =? 0) = true -> x = 0 \/ x = -0.
Proof.
  intros x H. rewrite FloatAxioms.eqb_spec in H.
  change (Prim2SF 0) with (S754_zero false) in H.
  pose proof (SF2Prim_Prim2SF x) as E.
  destruct (Prim2SF x) as [[]|[]| |[] m e]; unfold SFeqb, SFcompare in H;
    try discriminate; rewrite <- E; [right | left]; reflexivity.
Qed.

End Comparisons.

Section RiskLevels.

Import Thresholds.
Local Open Scope float_scope.

Lemma is_nan_const : is_nan 40 = false /\ is_nan 70 = false.
Proof. split; reflexivity. Qed.

(** The ternary chain of the source computes the documented bucketing of
    every score that is a number. *)
Lemma riskOf_matches : forall s, is_nan s = false -> risk_matches s (riskOf s).
Proof.
  intros s Hs. destruct is_nan_const as [H40 H70].
  pose proof (leb_ltb 70 s H70 Hs) as L70.
  pose proof (leb_ltb 40 s H40 Hs) as L40.
  pose proof (ltb_40_70 s) as T.
  unfold risk_matches, riskOf, ge.
  destruct (70 <=? s) eqn:E70; destruct (40 <=? s) eqn:E40;
    destruct (s <? 70) eqn:F70; destruct (s <? 40) eqn:F40;
    simpl in L70, L40; try discriminate;
    try (specialize (T eq_refl); discriminate);
    repeat split; intros; try discriminate; try reflexivity;
    try (destruct H; discriminate).
Qed.

Lemma recommendations_riskOf : forall s,
  rec_riskLevel (getSafetyRecommendations s) = riskOf s.
Proof.
  intros s. unfold getSafetyRecommendations, riskOf.
  destruct (ge s 70); [reflexivity|]. destruct (ge s 40); reflexivity.
Qed.

End RiskLevels.

(* ------------------------------------------------------------------ *)
(** ** The simulation *)
(* ------------------------------------------------------------------ *)

Section SimulationProperties.

Import Thresholds Inputs Ops.
Local Open Scope float_scope.

(** C1, as stated, fails: with every crime count zero the simulation is not
    rejected with InvalidInput; it returns the score 100 with risk level
    Low. *)
Lemma simulate_all_zero_returns_score :
  Forall (fun entry => (snd entry =? 0) = true) (entries allZero) /\
  simulate_op allZero
  = Returned {| sim_score := 100;
                sim_riskLevel := Low;
                interpretation := interpretations Low |} /\
  simulate_op allZero <> Failed InvalidInput.
Proof.
  split; [repeat constructor|].
  split; [vm_compute; reflexivity | discriminate].
Qed.

(** C1, amended: when every crime count is zero the simulation completes and
    returns the score 100 with risk level Low and the Low interpretation;
    no input at all is rejected, since the function validates nothing. *)
Theorem simulate_zero_counts_scored : forall v,
  Forall (fun entry => (snd entry =? 0) = true) (entries v) ->
  simulate_op v
  = Returned {| sim_score := 100;
                sim_riskLevel := Low;
                interpretation := interpretations Low |}
  /\ (forall w f, simulate_op w <> Failed f).
Proof.
  intros [r a k d t] H. unfold entries in H. cbn [vRape vAssaultOnWomen
    vKidnappingAndAbduction vDomesticViolence vWomenTrafficking] in H.
  repeat match goal with
         | H : Forall _ (_ :: _) |- _ => inversion H; clear H; subst
         end.
  repeat match goal with
         | H : (snd (_, ?x) =? 0) = true |- _ =>
             cbn [snd] in H; apply eqb_zero_cases in H; destruct H; subst x
         end.
  all: split; [vm_compute; reflexivity | intros w f; discriminate].
Qed.

Lemma simulate_zero_counts_scored_witness :
  Forall (fun entry => (snd entry =? 0) = true) (entries allZero) /\
  simulate_op allZero
  = Returned {| sim_score := 100;
                sim_riskLevel := Low;
                interpretation := interpretations Low |}.
Proof.
  split.
  - repeat constructor.
  - apply (simulate_zero_counts_scored allZero). repeat constructor.
Defined.

(** C2, as stated, fails: the counts (1000, 0, 0, 0, 0) are non-negative and
    accepted, the weighted sum is 250, and the score returned is -150, below
    0 and different from the clamped value 0. *)
Lemma simulate_score_not_clamped :
  Forall (fun entry => (0 <=? snd entry) = true) (entries rapeOnly1000) /\
  weightedSum rapeOnly1000 = 250 /\
  sim_score (simulateSafetyScore rapeOnly1000) = -150 /\
  (sim_score (simulateSafetyScore rapeOnly1000) <? 0) = true /\
  clamp (100 - weightedSum rapeOnly1000) = 0.
Proof.
  split; [repeat constructor|].
  repeat split; vm_compute; reflexivity.
Qed.

(** C2, amended: for every vector of crime values set by the sliders of the
    simulation page (integers from 0 to 100), the score returned is 100 minus
    the weighted sum with weights 0.25, 0.2, 0.2, 0.2 and 0.15, rounded to
    the nearest integer; it is never below 0 and never above 100 and equals
    its own clamp to [0,100].  The function itself does not clamp. *)
Theorem simulate_slider_score_in_range : forall v,
  Simulation.fromSliders v ->
  let s := sim_score (simulateSafetyScore v) in
  s = Math_round (100 - (0 + vRape v * 0.25 + vAssaultOnWomen v * 0.2
                         + vKidnappingAndAbduction v * 0.2
                         + vDomesticViolence v * 0.2
                         + vWomenTrafficking v * 0.15))
  /\ is_nan s = false
  /\ (0 <=? s) = true /\ (s <=? 100) = true
  /\ (clamp s =? s) = true.
Proof.
  intros v Hv s. split; [reflexivity|].
  pose proof (all_ok_In _ _ _ reachable_scores_checked
                (weightedSum_reachable v Hv)) as H.
  unfold Reach.slider_score_ok, in_range in H.
  change (Math_round (100 - weightedSum v)) with s in H.
  apply andb_prop in H. destruct H as [H Hc].
  apply andb_prop in H. destruct H as [Hn Hr].
  apply andb_prop in Hr. destruct Hr as [H0 H100].
  apply negb_true_iff in Hn.
  repeat split; assumption.
Qed.

Lemma default_values_from_sliders :
  Simulation.fromSliders Simulation.DEFAULT_VALUES.
Proof.
  unfold Simulation.fromSliders, Simulation.sliderPositions.
  repeat split; apply in_map_iff; exists 50%nat;
    (split; [vm_compute; reflexivity | apply in_seq; lia]).
Defined.

Lemma simulate_slider_score_in_range_witness :
  Simulation.fromSliders Simulation.DEFAULT_VALUES /\
  (0 <=? sim_score (simulateSafetyScore Simulation.DEFAULT_VALUES)) = true /\
  (sim_score (simulateSafetyScore Simulation.DEFAULT_VALUES) <=? 100) = true.
Proof.
  split; [exact default_values_from_sliders|].
  destruct (simulate_slider_score_in_range Simulation.DEFAULT_VALUES
              default_values_from_sliders) as (_ & _ & H0 & H100 & _).
  split; assumption.
Defined.

End SimulationProperties.

(* ------------------------------------------------------------------ *)
(** ** The state/year score *)
(* ------------------------------------------------------------------ *)

Section StateYearProperties.

Import Thresholds Ops.
Local Open Scope float_scope.

Lemma reference_scores_checked :
  forallb Checks.state_year_ok (list_prod INDIAN_STATES YEARS) = true.
Proof. vm_compute. reflexivity. Qed.

(** C6: for every state and year of the reference data, the state/year
    score is returned, lies in [0,100], and comes with the risk level the
    thresholds give it: High below 40, Medium from 40 up to but excluding
    70, Low from 70. *)
Theorem reference_scores_in_range : forall state year,
  In state INDIAN_STATES -> In year YEARS ->
  let r := calculateSafetyScore state year in
  score_op state year = Returned r
  /\ (0 <=? score r) = true /\ (score r <=? 100) = true
  /\ risk_matches (score r) (riskLevel r).
Proof.
  intros state year Hs Hy r.
  pose proof (proj1 (forallb_forall _ _) reference_scores_checked
                (state, year) (proj2 (in_prod_iff _ _ _ _) (conj Hs Hy))) as H.
  unfold Checks.state_year_ok, in_range in H. cbn [fst snd] in H.
  apply andb_prop in H. destruct H as [Hn Hr].
  apply andb_prop in Hr. destruct Hr as [H0 H100].
  apply negb_true_iff in Hn.
  split; [reflexivity|]. split; [exact H0|]. split; [exact H100|].
  apply riskOf_matches. exact Hn.
Qed.

Lemma reference_scores_in_range_witness :
  In "Delhi"%string INDIAN_STATES /\ In 2021%Z YEARS /\
  (0 <=? score (calculateSafetyScore "Delhi" 2021)) = true /\
  (score (calculateSafetyScore "Delhi" 2021) <=? 100) = true.
Proof.
  assert (Hs : In "Delhi"%string INDIAN_STATES).
  { unfold INDIAN_STATES. do 28 right. left. reflexivity. }
  assert (Hy : In 2021%Z YEARS).
  { unfold YEARS. apply in_map_iff. exists 20%nat.
    split; [reflexivity | apply in_seq; lia]. }
  split; [exact Hs|]. split; [exact Hy|].
  destruct (reference_scores_in_range "Delhi" 2021 Hs Hy)
    as (_ & H0 & H100 & _).
  split; assumption.
Defined.

End StateYearProperties.

(* ------------------------------------------------------------------ *)
(** ** Risk levels *)
(* ------------------------------------------------------------------ *)

Section RiskLevelProperties.

Import Thresholds Ops.
Local Open Scope float_scope.

Lemma slider_positions_are_numbers :
  forallb (fun s => negb (is_nan s)) Simulation.sliderPositions = true.
Proof. vm_compute. reflexivity. Qed.

Lemma page_scores_are_numbers : forall c,
  fromPages c -> is_nan (fst (scored c)) = false.
Proof.
  intros [state year | v | s] H; unfold scored; cbn [fst]; apply negb_true_iff.
  - destruct H as [Hs Hy].
    pose proof (proj1 (forallb_forall _ _) reference_scores_checked
                  (state, year) (proj2 (in_prod_iff _ _ _ _) (conj Hs Hy)))
      as C.
    unfold Checks.state_year_ok in C. cbn [fst snd] in C.
    apply andb_prop in C. apply C.
  - pose proof (all_ok_In _ _ _ reachable_scores_checked
                  (weightedSum_reachable v H)) as C.
    unfold Reach.slider_score_ok in C.
    apply andb_prop in C. destruct C as [C _].
    apply andb_prop in C. apply C.
  - exact (proj1 (forallb_forall _ _) slider_positions_are_numbers s H).
Qed.

(** C3: for every score handed out by the state/year score, by the
    simulation or by the recommendations lookup, the risk level next to it is
    the bucket of the score: High below 40, Medium from 40 up to but
    excluding 70, Low from 70; 40 itself is Medium and 70 itself is Low.
    This holds of every score that is a number (NaN has no bucket), and the
    score of every call the pages make is a number. *)
Theorem risk_level_buckets_every_score :
  (forall c : ScoringCall,
     is_nan (fst (scored c)) = false ->
     risk_matches (fst (scored c)) (snd (scored c)))
  /\ (forall c : ScoringCall,
        fromPages c -> risk_matches (fst (scored c)) (snd (scored c)))
  /\ snd (scored (Recommend 40)) = Medium
  /\ snd (scored (Recommend 70)) = Low.
Proof.
  assert (G : forall c : ScoringCall,
            is_nan (fst (scored c)) = false ->
            risk_matches (fst (scored c)) (snd (scored c))).
  { intros [state year | v | s] H; unfold scored in *; cbn [fst snd] in *.
    - apply riskOf_matches. exact H.
    - apply riskOf_matches. exact H.
    - rewrite recommendations_riskOf. apply riskOf_matches. exact H. }
  split; [exact G|].
  split; [intros c Hc; apply G; apply page_scores_are_numbers; exact Hc|].
  split; vm_compute; reflexivity.
Qed.

Lemma risk_level_buckets_every_score_witness :
  is_nan (fst (scored (Recommend 55))) = false /\
  risk_matches (fst (scored (Recommend 55))) (snd (scored (Recommend 55))).
Proof.
  split.
  - reflexivity.
  - apply (proj1 risk_level_buckets_every_score (Recommend 55)). reflexivity.
Defined.

End RiskLevelProperties.

(* ------------------------------------------------------------------ *)
(** ** State names *)
(* ------------------------------------------------------------------ *)

Section Membership.

Local Open Scope string_scope.

Lemma not_in_by_decision : forall (s : string) (l : list string),
  (if in_dec string_dec s l then true else false) = false -> ~ In s l.
Proof.
  intros s l H. destruct (in_dec string_dec s l); [discriminate | assumption].
Qed.

End Membership.

(* ------------------------------------------------------------------ *)
(** ** The leaderboard *)
(* ------------------------------------------------------------------ *)

Section LeaderboardProperties.

Import Ops.
Local Open Scope float_scope.

Lemma sort_insert_perm : forall (A : Type) (compare : A -> A -> float) x l,
  Permutation (sort_insert compare x l) (x :: l).
Proof.
  intros A compare x l. induction l as [|y l IH]; simpl.
  - apply Permutation_refl.
  - destruct (gt (compare x y) 0).
    + apply perm_trans with (y :: x :: l).
      * apply perm_skip. exact IH.
      * apply perm_swap.
    + apply Permutation_refl.
Qed.

(** Sorting rearranges: nothing is added, dropped or repeated. *)
Lemma sort_perm : forall (A : Type) (compare : A -> A -> float) l,
  Permutation (sort compare l) l.
Proof.
  intros A compare l. induction l as [|x l IH]; simpl.
  - apply perm_nil.
  - apply perm_trans with (x :: sort compare l).
    + apply sort_insert_perm.
    + apply perm_skip. exact IH.
Qed.

Lemma leaderboard_value :
  getLeaderboardData
  = [ {| rank := 1; state := "Chhattisgarh"; rk_score := 52; rk_riskLevel := Medium |};
      {| rank := 2; state := "Assam"; rk_score := 55; rk_riskLevel := Medium |};
      {| rank := 3; state := "Bihar"; rk_score := 55; rk_riskLevel := Medium |};
      {| rank := 4; state := "Delhi"; rk_score := 55; rk_riskLevel := Medium |};
      {| rank := 5; state := "Arunachal Pradesh"; rk_score := 57; rk_riskLevel := Medium |};
      {| rank := 6; state := "Tamil Nadu"; rk_score := 60; rk_riskLevel := Medium |};
      {| rank := 7; state := "Goa"; rk_score := 63; rk_riskLevel := Medium |};
      {| rank := 8; state := "Nagaland"; rk_score := 68; rk_riskLevel := Medium |};
      {| rank := 9; state := "Uttar Pradesh"; rk_score := 73; rk_riskLevel := Low |};
      {| rank := 10; state := "Kerala"; rk_score := 76; rk_riskLevel := Low |} ].
Proof. vm_compute. reflexivity. Qed.

(** C4, as stated, fails: the leaderboard has 10 entries for 29 known
    states; "Odisha" is a known state without an entry. *)
Lemma leaderboard_omits_known_states :
  List.length INDIAN_STATES = 29%nat /\
  List.length getLeaderboardData = 10%nat /\
  In "Odisha"%string INDIAN_STATES /\
  ~ In "Odisha"%string (map state getLeaderboardData).
Proof.
  split; [reflexivity|]. split; [vm_compute; reflexivity|].
  split.
  - unfold INDIAN_STATES. do 18 right. left. reflexivity.
  - apply not_in_by_decision. vm_compute. reflexivity.
Qed.

Lemma mapi_from_In : forall (A B : Type) (f : A -> nat -> B) l k b,
  In b (mapi_from f k l) -> exists a i, In a l /\ b = f a i.
Proof.
  intros A B f l. induction l as [|a l IH]; intros k b H; simpl in H.
  - destruct H.
  - destruct H as [<-|H].
    + exists a, k. split; [left; reflexivity | reflexivity].
    + destruct (IH _ _ H) as (a' & i & Ha & ->).
      exists a', i. split; [right; exact Ha | reflexivity].
Qed.

Lemma firstn_In : forall (A : Type) n (l : list A) a,
  In a (firstn n l) -> In a l.
Proof.
  intros A n l a H. rewrite <- (firstn_skipn n l).
  apply in_or_app. left. exact H.
Qed.

(** Every entry of the leaderboard carries a known state with the score and
    the risk level the state/year score gives it for 2021. *)
Lemma leaderboard_entries_scored : forall e,
  In e getLeaderboardData ->
  In (state e) INDIAN_STATES
  /\ rk_score e = score (calculateSafetyScore (state e) 2021)
  /\ rk_riskLevel e = riskLevel (calculateSafetyScore (state e) 2021).
Proof.
  intros e H. unfold getLeaderboardData, mapi, slice0 in H.
  apply mapi_from_In in H. destruct H as (item & i & Hitem & ->).
  apply firstn_In in Hitem.
  apply (Permutation_in _ (sort_perm _ _ _)) in Hitem.
  unfold statesWithScores in Hitem. apply in_map_iff in Hitem.
  destruct Hitem as (s & <- & Hs). cbn [state rk_score rk_riskLevel fst snd].
  repeat split. exact Hs.
Qed.

(** C4, amended: the leaderboard takes no year filter; it scores every
    known state for 2021, sorts ascending by score and keeps the first ten:
    the list returned has ten entries ranked 1 to 10, no state twice, each a
    known state with its 2021 score and risk level, in ascending order of
    score, and no state left out scores lower than a state listed. *)
Theorem leaderboard_ten_lowest_ascending :
  leaderboard_op = Returned getLeaderboardData
  /\ List.length getLeaderboardData = 10%nat
  /\ map rank getLeaderboardData = map Z.of_nat (seq 1 10)
  /\ NoDup (map state getLeaderboardData)
  /\ Forall
       (fun e =>
          In (state e) INDIAN_STATES
          /\ rk_score e = score (calculateSafetyScore (state e) 2021)
          /\ rk_riskLevel e = riskLevel (calculateSafetyScore (state e) 2021))
       getLeaderboardData
  /\ StronglySorted (fun a b => (rk_score a <=? rk_score b) = true)
       getLeaderboardData
  /\ Forall
       (fun s =>
          Forall
            (fun e =>
               (rk_score e <=? score (calculateSafetyScore s 2021)) = true)
            getLeaderboardData)
       (Checks.unranked getLeaderboardData INDIAN_STATES).
Proof.
  split; [reflexivity|].
  split; [rewrite leaderboard_value; reflexivity|].
  split; [rewrite leaderboard_value; reflexivity|].
  split.
  { assert (E : nodup string_dec (map state getLeaderboardData)
                = map state getLeaderboardData) by (vm_compute; reflexivity).
    rewrite <- E. apply NoDup_nodup. }
  split; [apply Forall_forall; exact leaderboard_entries_scored|].
  split.
  { rewrite leaderboard_value.
    repeat (constructor; [|repeat (constructor; [reflexivity|]); constructor]).
    constructor. }
  { assert (C : forallb
                  (fun s =>
                     forallb
                       (fun e =>
                          rk_score e <=? score (calculateSafetyScore s 2021))
                       getLeaderboardData)
                  (Checks.unranked getLeaderboardData INDIAN_STATES) = true)
      by (vm_compute; reflexivity).
    apply Forall_forall. intros s Hs. apply Forall_forall. intros e He.
    pose proof (proj1 (forallb_forall _ _) C s Hs) as H. cbv beta in H.
    exact (proj1 (forallb_forall _ _) H e He). }
Qed.

End LeaderboardProperties.

(* ------------------------------------------------------------------ *)
(** ** The trend series *)
(* ------------------------------------------------------------------ *)

Section TrendProperties.

Local Open Scope float_scope.

Lemma mapi_from_nth_error : forall (A B : Type) (f : A -> nat -> B) l k i,
  nth_error (mapi_from f k l) i
  = option_map (fun a => f a (k + i)%nat) (nth_error l i).
Proof.
  intros A B f l. induction l as [|a l IH]; intros k i.
  - destruct i; reflexivity.
  - destruct i as [|i]; simpl.
    + rewrite Nat.add_0_r. reflexivity.
    + rewrite IH. rewrite Nat.add_succ_r. reflexivity.
Qed.

Lemma mapi_from_length : forall (A B : Type) (f : A -> nat -> B) l k,
  List.length (mapi_from f k l) = List.length l.
Proof.
  intros A B f l. induction l as [|a l IH]; intros k; simpl.
  - reflexivity.
  - rewrite IH. reflexivity.
Qed.

(** The second pass keeps every count where it is. *)
Lemma withMovingAvg_countAt : forall data j,
  countAt (withMovingAvg data) j = countAt data j.
Proof.
  intros data j. unfold countAt, withMovingAvg, mapi.
  rewrite mapi_from_nth_error.
  destruct (nth_error data j) as [item|]; cbn [option_map Nat.add];
    [|reflexivity].
  destruct (2 <=? j)%nat; reflexivity.
Qed.

Lemma withMovingAvg_nth_error : forall data i p,
  nth_error (withMovingAvg data) i = Some p ->
  count p = countAt data i
  /\ movingAvg p
     = if (2 <=? i)%nat then
         Some (Math_round
                 ((countAt data i + countAt data (i - 1)
                   + countAt data (i - 2)) / 3))
       else
         match nth_error data i with
         | Some item => movingAvg item
         | None => None
         end.
Proof.
  intros data i p H. unfold withMovingAvg, mapi in H.
  rewrite mapi_from_nth_error in H. unfold countAt at 1.
  destruct (nth_error data i) as [item|]; cbn [option_map Nat.add] in H;
    [|discriminate].
  destruct (2 <=? i)%nat; injection H as <-; split; reflexivity.
Qed.

Lemma trendCounts_no_average : forall Math_sin state crimeType i item,
  nth_error (trendCounts Math_sin state crimeType) i = Some item ->
  movingAvg item = None.
Proof.
  intros Math_sin state crimeType i item H. unfold trendCounts, mapi in H.
  rewrite mapi_from_nth_error in H.
  destruct (nth_error YEARS i); cbn [option_map] in H; [|discriminate].
  injection H as <-. reflexivity.
Qed.

(** C7: in the trend series of every state and crime type, a point carries
    a moving-average value exactly when it has at least two points before
    it (the first two of the 21 points carry none), and the value is then
    the rounded mean of its own count and of the counts of the two points
    just before it. *)
Theorem trend_moving_average : forall Math_sin state crimeType i p,
  let series := getCrimeTrendData Math_sin state crimeType in
  nth_error series i = Some p ->
  List.length series = 21%nat
  /\ count p = countAt series i
  /\ (movingAvg p <> None <-> (2 <= i)%nat)
  /\ ((2 <= i)%nat ->
      movingAvg p
      = Some (Math_round
                ((countAt series i + countAt series (i - 1)
                  + countAt series (i - 2)) / 3))).
Proof.
  intros Math_sin state crimeType i p series H.
  unfold series, getCrimeTrendData in *.
  rewrite !withMovingAvg_countAt.
  destruct (withMovingAvg_nth_error _ _ _ H) as [Hc Hm].
  split.
  { unfold withMovingAvg, trendCounts, mapi.
    rewrite !mapi_from_length. reflexivity. }
  split; [exact Hc|].
  destruct (Nat.leb_spec 2 i) as [Hi|Hi].
  - split.
    + split; [intros _; exact Hi | intros _; rewrite Hm; discriminate].
    + intros _. exact Hm.
  - split.
    + split; [|lia].
      intros Hne. exfalso. apply Hne. rewrite Hm.
      destruct (nth_error (trendCounts Math_sin state crimeType) i)
        as [item|] eqn:E; [|reflexivity].
      exact (trendCounts_no_average _ _ _ _ _ E).
    + lia.
Qed.

Lemma trend_moving_average_witness :
  nth_error (getCrimeTrendData (fun _ => 0) "Delhi" Rape) 2
  = Some {| year := 2003; count := 539; movingAvg := Some 524 |}
  /\ (2 <= 2)%nat
  /\ Some 524
     = Some (Math_round
               ((countAt (getCrimeTrendData (fun _ => 0) "Delhi" Rape) 2
                 + countAt (getCrimeTrendData (fun _ => 0) "Delhi" Rape) 1
                 + countAt (getCrimeTrendData (fun _ => 0) "Delhi" Rape) 0)
                / 3)).
Proof.
  assert (H : nth_error (getCrimeTrendData (fun _ => 0) "Delhi" Rape) 2
              = Some {| year := 2003; count := 539; movingAvg := Some 524 |})
    by (vm_compute; reflexivity).
  split; [exact H|]. split; [lia|].
  destruct (trend_moving_average (fun _ => 0) "Delhi" Rape 2 _ H)
    as (_ & _ & _ & Havg).
  exact (Havg (le_n 2)).
Defined.

End TrendProperties.

(* ------------------------------------------------------------------ *)
(** ** The SOS message and link *)
(* ------------------------------------------------------------------ *)

Section SOSProperties.

Import SOS.
Local Open Scope string_scope.

(** Replacing every non-digit by nothing keeps the digits, in order. *)
Lemma replace_nondigits_filter : forall phone,
  replace_nondigits phone
  = string_of_list_ascii (filter is_digit (list_ascii_of_string phone)).
Proof.
  induction phone as [|c rest IH]; simpl.
  - reflexivity.
  - destruct (is_digit c); simpl; rewrite IH; reflexivity.
Qed.

Example whatsapp_link_no_details :
  getWhatsAppLink "" "" "" "+91 98765-43210"
  = "https://wa.me/919876543210?text=%F0%9F%9A%A8%20EMERGENCY%20ALERT%20%F0%9F%9A%A8%0A%0AThis%20is%20someone%20and%20I%20need%20immediate%20help!%0A%0A%F0%9F%93%8D%20Location%3A%20Unknown%0A%0A%0APlease%20call%20me%20or%20send%20help%20immediately.%20This%20is%20an%20emergency.".
Proof. vm_compute. reflexivity. Qed.

(** C10: for every contact phone string the link is ["https://wa.me/"],
    then the phone with every non-digit character removed, then ["?text="],
    then the URI-encoded alert message; the message reads "someone" for an
    empty user name and "Unknown" for an empty area, so it is defined for
    all field values, empty ones included. *)
Theorem whatsapp_link_and_message : forall userName area mapsLink phone,
  getWhatsAppLink userName area mapsLink phone
  = "https://wa.me/"
    ++ string_of_list_ascii (filter is_digit (list_ascii_of_string phone))
    ++ "?text=" ++ encodeURIComponent (generateMessage userName area mapsLink)
  /\ Forall (fun c => is_digit c = true)
       (filter is_digit (list_ascii_of_string phone))
  /\ generateMessage "" area mapsLink = generateMessage "someone" area mapsLink
  /\ generateMessage userName "" mapsLink
     = generateMessage userName "Unknown" mapsLink
  /\ generateMessage userName area mapsLink
     = "🚨 EMERGENCY ALERT 🚨" ++ nl ++ nl
       ++ "This is " ++ (if String.eqb userName "" then "someone" else userName)
       ++ " and I need immediate help!" ++ nl ++ nl
       ++ "📍 Location: " ++ (if String.eqb area "" then "Unknown" else area)
       ++ nl
       ++ (if String.eqb mapsLink "" then "" else "🗺️ Maps: " ++ mapsLink)
       ++ nl ++ nl
       ++ "Please call me or send help immediately. This is an emergency.".
Proof.
  intros userName area mapsLink phone.
  split.
  { unfold getWhatsAppLink. rewrite replace_nondigits_filter. reflexivity. }
  split.
  { apply Forall_forall. intros c Hc. apply filter_In in Hc. apply Hc. }
  split; [reflexivity|]. split; [reflexivity|].
  unfold generateMessage.
  destruct userName, area, mapsLink; reflexivity.
Qed.

End SOSProperties.

(* ------------------------------------------------------------------ *)
(** ** Order of numbers *)
(* ------------------------------------------------------------------ *)

Section NumberOrder.

Local Open Scope float_scope.

Lemma SFleb_trans : forall x y z,
  SFleb x y = true -> SFleb y z = true -> SFleb x z = true.
Proof.
  intros x y z. unfold SFleb, SFcompare.
  destruct x as [[]|[]| |[] mx ex]; destruct y as [[]|[]| |[] my ey];
    try discriminate; destruct z as [[]|[]| |[] mz ez];
    try discriminate; try reflexivity;
    change (Pos.compare_cont Eq) with Pos.compare;
    repeat match goal with
    | |- context [(?a ?= ?b)%Z] => destruct (Z.compare_spec a b)
    | |- context [(?a ?= ?b)%positive] => destruct (Pos.compare_spec a b)
    end; cbn [CompOpp]; try discriminate; try reflexivity; intros; subst; lia.
Qed.

Lemma leb_trans : forall a b c,
  (a <=? b) = true -> (b <=? c) = true -> (a <=? c) = true.
Proof. intros a b c. rewrite !leb_spec. apply SFleb_trans. Qed.

(** A number below another is not above it. *)
Lemma ltb_asym : forall a b, (a <? b) = true -> (b <? a) = false.
Proof.
  intros a b. rewrite !ltb_spec. unfold SFltb.
  rewrite (SFcompare_antisym (Prim2SF b) (Prim2SF a)).
  destruct (SFcompare (Prim2SF a) (Prim2SF b)) as [[]|]; simpl;
    intros; try discriminate; reflexivity.
Qed.

(** Only numbers compare: NaN is below or equal to nothing. *)
Lemma leb_not_nan : forall a b,
  (a <=? b) = true -> is_nan a = false /\ is_nan b = false.
Proof.
  intros a b H. unfold is_nan. rewrite !FloatAxioms.eqb_spec.
  rewrite leb_spec in H. unfold SFleb, SFeqb in *.
  destruct (Prim2SF a) as [[]|[]| |[] ma ea];
    destruct (Prim2SF b) as [[]|[]| |[] mb eb];
    try discriminate; unfold SFcompare;
    rewrite ?Z.compare_refl; change (Pos.compare_cont Eq) with Pos.compare;
    rewrite ?Pos.compare_refl; split; reflexivity.
Qed.

Lemma strongly_sortedb_sound : forall (A : Type) (r : A -> A -> bool) l,
  PageChecks.strongly_sortedb r l = true ->
  StronglySorted (fun a b => r a b = true) l.
Proof.
  intros A r l. induction l as [|a l IH]; intros H; simpl in H.
  - constructor.
  - apply andb_prop in H. destruct H as [Ha Hl].
    constructor; [apply IH; exact Hl|].
    apply Forall_forall. intros b Hb.
    exact (proj1 (forallb_forall _ _) Ha b Hb).
Qed.

Lemma below_In : forall n k, (0 <= k < Z.of_nat n)%Z -> In k (PageChecks.below n).
Proof.
  intros n k H. unfold PageChecks.below. apply in_map_iff.
  exists (Z.to_nat k). split; [lia | apply in_seq; lia].
Qed.

End NumberOrder.

(* ------------------------------------------------------------------ *)
(** ** The heatmap *)
(* ------------------------------------------------------------------ *)

Section HeatmapProperties.

Import Heatmap.
Local Open Scope float_scope.

Lemma heat_cells_checked :
  forallb PageChecks.heat_ok (PageChecks.below 100) = true.
Proof. vm_compute. reflexivity. Qed.

(** X1: every heatmap cell, for any state name and crime type, has an
    intensity between 0 and 0.99 and a count of exactly 500 plus 50 times
    [seed % 100], hence between 500 and 5450; the saturation and lightness
    of its card lie between 0 and 100.  The heatmap has one cell per known
    state, in the order of the enumeration. *)
Theorem heatmap_cells_bounded : forall crimeType state,
  let seed :=
    (Z.of_nat (length state)
     * Z.of_nat (length (crimeName crimeType)))%Z in
  let cell := heatCell crimeType state in
  (0 <=? intensity cell) = true /\ (intensity cell <=? 0.99) = true
  /\ count cell = Z2F (500 + 50 * (seed mod 100))
  /\ (500 <= 500 + 50 * (seed mod 100) <= 5450)%Z
  /\ (0 <=? saturation cell) = true /\ (saturation cell <=? 100) = true
  /\ (0 <=? lightness cell) = true /\ (lightness cell <=? 100) = true
  /\ map Heatmap.state (getHeatmapData crimeType) = INDIAN_STATES.
Proof.
  intros crimeType state seed cell.
  assert (Hseed : (0 <= seed)%Z) by (unfold seed; lia).
  assert (Hrem : rem seed 100 = (seed mod 100)%Z)
    by (unfold rem; apply Z.rem_mod_nonneg; lia).
  assert (Hk : (0 <= seed mod 100 < 100)%Z) by (apply Z.mod_pos_bound; lia).
  pose proof (proj1 (forallb_forall _ _) heat_cells_checked _
                (below_In 100 _ Hk)) as C.
  unfold PageChecks.heat_ok in C.
  unfold cell, heatCell, saturation, lightness. cbn [intensity count].
  fold seed. rewrite Hrem.
  apply andb_prop in C. destruct C as [C L100].
  apply andb_prop in C. destruct C as [C L0].
  apply andb_prop in C. destruct C as [C S100].
  apply andb_prop in C. destruct C as [C S0].
  apply andb_prop in C. destruct C as [C Hcount].
  apply andb_prop in C. destruct C as [I0 I99].
  apply FloatAxioms.Leibniz.eqb_spec in Hcount.
  split; [exact I0|]. split; [exact I99|]. split; [exact Hcount|].
  split; [lia|].
  split; [exact S0|]. split; [exact S100|].
  split; [exact L0|]. split; [exact L100|].
  unfold getHeatmapData. rewrite map_map. apply map_id.
Qed.

Lemma heatmap_sorted_checked : forall crimeType,
  PageChecks.heatmap_sorted_ok crimeType = true.
Proof. intros []; vm_compute; reflexivity. Qed.

(** X2: for every crime type the heatmap page shows each cell of the data
    exactly once (the sorted cards are a rearrangement of the cells), in
    descending order of intensity, which is also descending order of
    count. *)
Theorem heatmap_cards_descending : forall selectedCrime,
  Permutation (sortedData selectedCrime) (getHeatmapData selectedCrime)
  /\ List.length (sortedData selectedCrime) = List.length INDIAN_STATES
  /\ StronglySorted
       (fun a b =>
          (intensity b <=? intensity a) && (count b <=? count a) = true)
       (sortedData selectedCrime).
Proof.
  intros selectedCrime.
  assert (P : Permutation (sortedData selectedCrime)
                (getHeatmapData selectedCrime)) by apply sort_perm.
  split; [exact P|]. split.
  - rewrite (Permutation_length P). unfold getHeatmapData.
    apply length_map.
  - apply strongly_sortedb_sound.
    exact (heatmap_sorted_checked selectedCrime).
Qed.

End HeatmapProperties.

(* ------------------------------------------------------------------ *)
(** ** More on the state/year score, the trend series and the tips *)
(* ------------------------------------------------------------------ *)

Section MoreScoreProperties.

Import Thresholds.
Local Open Scope float_scope.

Lemma base_scores_checked :
  forallb
    (fun year => forallb (PageChecks.base_score_ok year) (PageChecks.below 50))
    YEARS = true.
Proof. vm_compute. reflexivity. Qed.

Lemma YEARS_positive : forall year, In year YEARS -> (0 < year)%Z.
Proof.
  intros year H. unfold YEARS in H. apply in_map_iff in H.
  destruct H as (i & <- & _). lia.
Qed.

(** X3: for every state name whatever, known or not, and every year from
    2001 to 2021, the state/year score is a whole number from 40 to 99, so
    its risk level is Medium or Low and never High. *)
Theorem state_year_score_never_high : forall state year,
  In year YEARS ->
  let r := calculateSafetyScore state year in
  (40 <=? score r) = true /\ (score r <=? 99) = true
  /\ Math_round (score r) = score r
  /\ riskLevel r <> High.
Proof.
  intros state year Hy r.
  pose proof (YEARS_positive year Hy) as Hpos.
  set (seed := (Z.of_nat (length state) * year)%Z).
  assert (Hk : (0 <= rem seed 50 < 50)%Z).
  { unfold rem. rewrite Z.rem_mod_nonneg by (unfold seed; lia).
    apply Z.mod_pos_bound. lia. }
  pose proof (proj1 (forallb_forall _ _)
                (proj1 (forallb_forall _ _) base_scores_checked year Hy)
                _ (below_In 50 _ Hk)) as C.
  unfold PageChecks.base_score_ok in C.
  apply andb_prop in C. destruct C as [C Hint].
  apply andb_prop in C. destruct C as [H40 H99].
  apply FloatAxioms.Leibniz.eqb_spec in Hint.
  change (score r)
    with (Math_min 100
            (Math_max 0
               (Math_round (Z2F (40 + rem seed 50) + Z2F (year - 2001) * 0.5)))).
  split; [exact H40|]. split; [exact H99|]. split; [exact Hint|].
  change (riskLevel r)
    with (riskOf
            (Math_min 100
               (Math_max 0
                  (Math_round
                     (Z2F (40 + rem seed 50) + Z2F (year - 2001) * 0.5))))).
  unfold riskOf, ge.
  destruct (70 <=? _); [discriminate|]. rewrite H40. discriminate.
Qed.

Lemma state_year_score_never_high_witness :
  In 2010%Z YEARS /\
  (40 <=? score (calculateSafetyScore "Atlantis" 2010)) = true /\
  riskLevel (calculateSafetyScore "Atlantis" 2010) <> High.
Proof.
  assert (Hy : In 2010%Z YEARS).
  { unfold YEARS. apply in_map_iff. exists 9%nat.
    split; [reflexivity | apply in_seq; lia]. }
  split; [exact Hy|].
  destruct (state_year_score_never_high "Atlantis" 2010 Hy)
    as (H40 & _ & _ & Hr).
  split; assumption.
Defined.

(** [Math.max(0, x)] is never negative. *)
Lemma Math_max_zero_not_negative : forall x, (Math_max 0 x <? 0) = false.
Proof.
  intros x. unfold Math_max.
  destruct (is_nan 0 || is_nan x); [reflexivity|].
  destruct (0 <? x) eqn:E; [apply ltb_asym; exact E|].
  destruct (x <? 0); [reflexivity|].
  destruct (is_neg_zero 0) eqn:Z; [discriminate Z | reflexivity].
Qed.

Lemma mapi_from_map : forall (A B C : Type) (f : A -> nat -> B) (g : B -> C)
  (h : A -> C) l k,
  (forall a i, g (f a i) = h a) -> map g (mapi_from f k l) = map h l.
Proof.
  intros A B C f g h l. induction l as [|a l IH]; intros k H; simpl.
  - reflexivity.
  - rewrite H, (IH _ H). reflexivity.
Qed.

Lemma mapi_from_Forall : forall (A B C : Type) (f : A -> nat -> B)
  (g : B -> C) (P : C -> Prop) l k,
  (forall a i, P (g (f a i))) -> Forall P (map g (mapi_from f k l)).
Proof.
  intros A B C f g P l. induction l as [|a l IH]; intros k H;
    cbn [mapi_from map].
  - constructor.
  - constructor; [apply H | apply IH; exact H].
Qed.

(** X4: whatever [Math.sin] returns, the trend series of a state and crime
    type has one point per year of the data, in ascending order of year
    from 2001 to 2021, no count is negative, and the moving-average pass
    leaves years and counts as the first pass made them. *)
Theorem trend_series_shape : forall Math_sin state crimeType,
  let series := getCrimeTrendData Math_sin state crimeType in
  map year series = YEARS
  /\ StronglySorted Z.lt (map year series)
  /\ Forall (fun p => (count p <? 0) = false) series
  /\ map count series = map count (trendCounts Math_sin state crimeType).
Proof.
  intros Math_sin state crimeType series.
  assert (Hy : map year series = YEARS).
  { unfold series, getCrimeTrendData, withMovingAvg, mapi.
    rewrite (mapi_from_map _ _ _ _ year year).
    - unfold trendCounts, mapi.
      rewrite (mapi_from_map _ _ _ _ year (fun y => y)); [apply map_id|].
      reflexivity.
    - intros a i. destruct (2 <=? i)%nat; reflexivity. }
  assert (Hc : map count series
               = map count (trendCounts Math_sin state crimeType)).
  { unfold series, getCrimeTrendData, withMovingAvg, mapi.
    apply mapi_from_map. intros a i. destruct (2 <=? i)%nat; reflexivity. }
  split; [exact Hy|]. split.
  { rewrite Hy. unfold YEARS. cbn [map seq].
    repeat (constructor; [|repeat (constructor; [lia|]); constructor]).
    constructor. }
  split; [|exact Hc].
  apply (proj1 (Forall_map count (fun c => (c <? 0) = false) series)).
  rewrite Hc. unfold trendCounts, mapi.
  apply mapi_from_Forall. intros y i. cbn [count].
  apply Math_max_zero_not_negative.
Qed.

Lemma tips_count : forall s,
  List.length (tips (getSafetyRecommendations s))
  = match riskOf s with Low => 5 | Medium => 7 | High => 9 end%nat.
Proof.
  intros s. unfold getSafetyRecommendations, riskOf.
  destruct (ge s 70); [reflexivity|]. destruct (ge s 40); reflexivity.
Qed.

(** X5: the recommendations hold exactly 5 tips for a Low risk, 7 for
    Medium and 9 for High, the level being Low from 70, Medium from 40 and
    High below; and a higher score never brings a higher risk level or more
    tips. *)
Theorem recommendations_grow_with_risk : forall s s',
  (s <=? s') = true ->
  (List.length (tips (getSafetyRecommendations s'))
   <= List.length (tips (getSafetyRecommendations s)))%nat
  /\ (rec_riskLevel (getSafetyRecommendations s) = Low ->
      rec_riskLevel (getSafetyRecommendations s') = Low)
  /\ (rec_riskLevel (getSafetyRecommendations s') = High ->
      rec_riskLevel (getSafetyRecommendations s) = High)
  /\ (5 <= List.length (tips (getSafetyRecommendations s)) <= 9)%nat
  /\ List.length (tips (getSafetyRecommendations s))
     = match rec_riskLevel (getSafetyRecommendations s) with
       | Low => 5 | Medium => 7 | High => 9
       end%nat
  /\ List.length (tips (getSafetyRecommendations s'))
     = match rec_riskLevel (getSafetyRecommendations s') with
       | Low => 5 | Medium => 7 | High => 9
       end%nat
  /\ rec_riskLevel (getSafetyRecommendations s)
     = (if 70 <=? s then Low else if 40 <=? s then Medium else High)
  /\ rec_riskLevel (getSafetyRecommendations s')
     = (if 70 <=? s' then Low else if 40 <=? s' then Medium else High).
Proof.
  intros s s' H. rewrite !tips_count, !recommendations_riskOf.
  unfold riskOf, ge.
  pose proof (fun c (Hc : (c <=? s) = true) => leb_trans c s s' Hc H) as T.
  destruct (70 <=? s) eqn:E70.
  - rewrite (T 70 E70). repeat split; try lia; intros; congruence.
  - destruct (40 <=? s) eqn:E40.
    + rewrite (T 40 E40).
      destruct (70 <=? s'); repeat split; try lia; intros; congruence.
    + destruct (70 <=? s'); [|destruct (40 <=? s')];
        repeat split; try lia; intros; congruence.
Qed.

Lemma recommendations_grow_with_risk_witness :
  (35 <=? 82) = true /\
  (List.length (tips (getSafetyRecommendations 82))
   <= List.length (tips (getSafetyRecommendations 35)))%nat.
Proof.
  split; [reflexivity|].
  apply (recommendations_grow_with_risk 35 82). reflexivity.
Defined.

End MoreScoreProperties.

(* ------------------------------------------------------------------ *)
(** ** More on the SOS link *)
(* ------------------------------------------------------------------ *)

Section LinkProperties.

Import SOS LinkChecks.
Local Open Scope string_scope.

Lemma unescape_escape : forall c rest,
  uri_unreserved c = false ->
  unescape
    (String "%"
       (String (hex_digit (nat_of_ascii c / 16))
          (String (hex_digit (nat_of_ascii c mod 16)) rest)))
  = String c (unescape rest).
Proof.
  intros c rest _. cbn [unescape]. f_equal.
  destruct c as [[] [] [] [] [] [] [] []]; reflexivity.
Qed.

Lemma percent_reserved : uri_unreserved "%" = false.
Proof. reflexivity. Qed.

Lemma unescape_unreserved : forall c rest,
  uri_unreserved c = true -> unescape (String c rest) = String c (unescape rest).
Proof.
  intros c rest H.
  destruct (Ascii.eqb c "%") eqn:E.
  - apply Ascii.eqb_eq in E. subst c. rewrite percent_reserved in H.
    discriminate.
  - destruct c as [[] [] [] [] [] [] [] []]; try discriminate; reflexivity.
Qed.

Lemma unescape_encodeURIComponent : forall s,
  unescape (encodeURIComponent s) = s.
Proof.
  induction s as [|c s IH]; [reflexivity|].
  cbn [encodeURIComponent]. destruct (uri_unreserved c) eqn:E.
  - rewrite (unescape_unreserved _ _ E), IH. reflexivity.
  - rewrite (unescape_escape _ _ E), IH. reflexivity.
Qed.

Lemma encodeURIComponent_chars : forall s,
  Forall (fun c => link_char c = true)
    (list_ascii_of_string (encodeURIComponent s)).
Proof.
  induction s as [|c s IH]; cbn [encodeURIComponent list_ascii_of_string].
  - constructor.
  - destruct (uri_unreserved c) eqn:E; cbn [list_ascii_of_string].
    + constructor; [unfold link_char; rewrite E; reflexivity | exact IH].
    + repeat constructor; try exact IH;
        destruct c as [[] [] [] [] [] [] [] []]; reflexivity.
Qed.

Lemma list_ascii_app : forall a b,
  list_ascii_of_string (a ++ b)
  = (list_ascii_of_string a ++ list_ascii_of_string b)%list.
Proof.
  induction a as [|c a IH]; intros b; simpl; [reflexivity|].
  rewrite IH. reflexivity.
Qed.

Lemma digit_link_char : forall c, is_digit c = true -> link_char c = true.
Proof.
  intros c. destruct c as [[] [] [] [] [] [] [] []]; intros H;
    try discriminate H; reflexivity.
Qed.

Lemma replace_nondigits_chars : forall phone,
  Forall (fun c => is_digit c = true)
    (list_ascii_of_string (replace_nondigits phone)).
Proof.
  induction phone as [|c rest IH]; cbn [replace_nondigits]; [constructor|].
  destruct (is_digit c) eqn:E; [constructor; assumption | exact IH].
Qed.

(** X6: whatever the user typed as name, area, maps link and phone, the
    WhatsApp link holds only unreserved URL characters and the delimiters
    [% : / ? =]: no space, line break, [&], [#] or non-ASCII byte reaches
    the link. *)
Theorem whatsapp_link_is_url_safe : forall userName area mapsLink phone,
  Forall (fun c => link_char c = true)
    (list_ascii_of_string (getWhatsAppLink userName area mapsLink phone))
  /\ link_char " " = false /\ link_char "&" = false /\ link_char "#" = false
  /\ link_char (ascii_of_nat 10) = false
  /\ (forall n, (128 <= n < 256)%nat -> link_char (ascii_of_nat n) = false).
Proof.
  intros userName area mapsLink phone. split.
  - unfold getWhatsAppLink. rewrite !list_ascii_app.
    apply Forall_app. split; [repeat constructor|].
    apply Forall_app. split.
    { eapply Forall_impl; [|apply replace_nondigits_chars].
      exact digit_link_char. }
    apply Forall_app. split; [repeat constructor|].
    apply encodeURIComponent_chars.
  - repeat split; try reflexivity.
    intros n Hn.
    assert (C : forallb (fun n => negb (link_char (ascii_of_nat n)))
                  (seq 128 128) = true) by (vm_compute; reflexivity).
    apply negb_true_iff.
    apply (proj1 (forallb_forall _ _) C n). apply in_seq. lia.
Qed.

Lemma append_cancel : forall p a b, p ++ a = p ++ b -> a = b.
Proof.
  induction p as [|c p IH]; intros a b H; simpl in H; [exact H|].
  injection H as H. apply IH. exact H.
Qed.

Lemma digits_then_mark : forall l1 l2 r1 r2,
  Forall (fun c => is_digit c = true) (list_ascii_of_string l1) ->
  Forall (fun c => is_digit c = true) (list_ascii_of_string l2) ->
  l1 ++ String "?" r1 = l2 ++ String "?" r2 -> l1 = l2 /\ r1 = r2.
Proof.
  induction l1 as [|c l1 IH]; intros [|d l2] r1 r2 H1 H2 H; simpl in *.
  - injection H as H. split; [reflexivity | exact H].
  - injection H as Hc _. subst d. inversion H2 as [|? ? Hd _]. discriminate Hd.
  - injection H as Hc _. subst c. inversion H1 as [|? ? Hd _]. discriminate Hd.
  - injection H as Hc H. subst d.
    inversion H1; subst. inversion H2; subst.
    destruct (IH l2 r1 r2) as [-> ->]; try assumption.
    split; reflexivity.
Qed.

(** X7: encoding loses nothing: two messages with the same encoding are the
    same message, and two links are equal only if they carry the same digits
    and the same alert message. *)
Theorem whatsapp_link_determines_message :
  (forall a b, encodeURIComponent a = encodeURIComponent b -> a = b)
  /\ (forall u a m p u' a' m' p',
        getWhatsAppLink u a m p = getWhatsAppLink u' a' m' p' ->
        replace_nondigits p = replace_nondigits p'
        /\ generateMessage u a m = generateMessage u' a' m').
Proof.
  assert (inj : forall a b, encodeURIComponent a = encodeURIComponent b -> a = b).
  { intros a b H.
    rewrite <- (unescape_encodeURIComponent a),
            <- (unescape_encodeURIComponent b), H.
    reflexivity. }
  split; [exact inj|].
  intros u a m p u' a' m' p' H. unfold getWhatsAppLink in H.
  apply append_cancel in H.
  change ("?text=" ++ ?x) with (String "?" ("text=" ++ x)) in H.
  apply digits_then_mark in H; try apply replace_nondigits_chars.
  destruct H as [Hp He]. split; [exact Hp|].
  apply append_cancel in He. apply inj. exact He.
Qed.

Lemma whatsapp_link_determines_message_witness :
  encodeURIComponent "a b" = encodeURIComponent "a b" /\ "a b" = "a b".
Proof.
  split; [reflexivity|].
  apply (proj1 whatsapp_link_determines_message). reflexivity.
Defined.

Lemma replace_nondigits_idempotent : forall phone,
  replace_nondigits (replace_nondigits phone) = replace_nondigits phone.
Proof.
  induction phone as [|c rest IH]; cbn [replace_nondigits]; [reflexivity|].
  destruct (is_digit c) eqn:E; [|exact IH].
  cbn [replace_nondigits]. rewrite E, IH. reflexivity.
Qed.

Lemma link_without_number : forall e,
  "https://wa.me/" ++ "" ++ "?text=" ++ e = "https://wa.me/?text=" ++ e.
Proof. intros e. reflexivity. Qed.

(** X8: the formatting of a phone number does not matter: a phone and its
    digits alone give the same link; a phone without any digit, which the
    page accepts, gives the link without a number. *)
Theorem whatsapp_link_ignores_formatting : forall userName area mapsLink phone,
  getWhatsAppLink userName area mapsLink (replace_nondigits phone)
  = getWhatsAppLink userName area mapsLink phone
  /\ (Forall (fun c => is_digit c = false) (list_ascii_of_string phone) ->
      getWhatsAppLink userName area mapsLink phone
      = "https://wa.me/?text="
        ++ encodeURIComponent (generateMessage userName area mapsLink)).
Proof.
  intros userName area mapsLink phone. split.
  - unfold getWhatsAppLink. rewrite replace_nondigits_idempotent. reflexivity.
  - intros H. unfold getWhatsAppLink.
    assert (E : replace_nondigits phone = "").
    { induction phone as [|c rest IH]; [reflexivity|].
      cbn [list_ascii_of_string] in H. inversion H as [|? ? Hc Hr]; subst.
      cbn [replace_nondigits]. rewrite Hc. apply IH. exact Hr. }
    rewrite E. apply link_without_number.
Qed.

Lemma whatsapp_link_ignores_formatting_witness :
  Forall (fun c => is_digit c = false) (list_ascii_of_string "n/a") /\
  getWhatsAppLink "" "" "" "n/a"
  = "https://wa.me/?text=" ++ encodeURIComponent (generateMessage "" "" "").
Proof.
  assert (H : Forall (fun c => is_digit c = false) (list_ascii_of_string "n/a"))
    by (repeat constructor).
  split; [exact H|].
  exact (proj2 (whatsapp_link_ignores_formatting "" "" "" "n/a") H).
Defined.

End LinkProperties.

(* ------------------------------------------------------------------ *)
(** ** The contacts of the SOS page *)
(* ------------------------------------------------------------------ *)

Section ContactProperties.

Import SOSPage.
Local Open Scope string_scope.

Lemma to_int_proper : forall z,
  Z.to_int z <> Decimal.Pos Decimal.Nil /\ Z.to_int z <> Decimal.Neg Decimal.Nil.
Proof.
  intros z. destruct z as [|p|p]; cbn [Z.to_int]; split; intros H;
    try discriminate H;
    injection H as H; exact (DecimalPos.Unsigned.to_uint_nonnil p H).
Qed.

(** Different integers print differently. *)
Lemma toString_inj : forall a b, Text.toString a = Text.toString b -> a = b.
Proof.
  intros a b H. unfold Text.toString in H.
  apply DecimalZ.to_int_inj.
  destruct (to_int_proper a) as [Ha1 Ha2]. destruct (to_int_proper b) as [Hb1 Hb2].
  pose proof (NilZero.isi _ Ha1 Ha2) as Ea.
  pose proof (NilZero.isi _ Hb1 Hb2) as Eb.
  rewrite H in Ea. rewrite Ea in Eb. injection Eb as Eb. exact Eb.
Qed.

Lemma toggle_ids : forall i l,
  map id
    (map
       (fun c =>
          if String.eqb (id c) i then
            {| id := id c; name := name c; phone := phone c;
               selected := negb (selected c) |}
          else c) l)
  = map id l.
Proof.
  intros i l. rewrite map_map. apply map_ext.
  intros c. destruct (String.eqb (id c) i); reflexivity.
Qed.

Lemma filter_ids_NoDup : forall (f : Contact -> bool) l,
  NoDup (map id l) -> NoDup (map id (filter f l)).
Proof.
  intros f l. induction l as [|c l IH]; intros H; simpl; [constructor|].
  inversion H as [|? ? Hn Hl]; subst. destruct (f c); simpl.
  - constructor; [|apply IH; exact Hl].
    intros Hin. apply Hn. apply in_map_iff in Hin.
    destruct Hin as (d & Hd & Hin). apply filter_In in Hin.
    apply in_map_iff. exists d. split; [exact Hd | apply Hin].
  - apply IH. exact Hl.
Qed.

Lemma filter_ids_incl : forall (f : Contact -> bool) l x,
  In x (map id (filter f l)) -> In x (map id l).
Proof.
  intros f l x H. apply in_map_iff in H. destruct H as (d & Hd & Hin).
  apply filter_In in Hin. apply in_map_iff. exists d.
  split; [exact Hd | apply Hin].
Qed.

Lemma run_keeps_ids_distinct : forall events s used,
  NoDup (ids s) ->
  (forall x, In x (ids s) -> In x (map Text.toString used)) ->
  NoDup (used ++ addTimes events) ->
  NoDup (ids (run events s)).
Proof.
  induction events as [|e events IH]; intros s used Hn Hu Ht; [exact Hn|].
  cbn [run fold_left]. change (fold_left step events (step s e))
    with (run events (step s e)).
  destruct e as [v|v|v|v|v|now|i|i];
    try (apply (IH _ used); assumption).
  - (* add *)
    cbn [addTimes flat_map] in Ht. change (flat_map _ events) with (addTimes events) in Ht.
    cbn [app] in Ht.
    assert (Hfresh : ~ In now used).
    { apply NoDup_remove_2 in Ht. intros Hin. apply Ht.
      apply in_or_app. left. exact Hin. }
    apply (IH _ (used ++ [now])%list).
    + cbn [step]. unfold addContact.
      destruct (Text.truthy (newName s) && Text.truthy (newPhone s));
        [|exact Hn].
      unfold ids. cbn [contacts]. rewrite map_app. cbn [map id].
      apply NoDup_app; [exact Hn | repeat constructor; intros [] |].
      intros x Hx [<-|[]]. apply Hu in Hx. apply in_map_iff in Hx.
      destruct Hx as (t & Ht' & Hin). apply toString_inj in Ht'. subst t.
      exact (Hfresh Hin).
    + intros x Hx. rewrite map_app. apply in_or_app.
      cbn [step] in Hx. unfold addContact in Hx.
      destruct (Text.truthy (newName s) && Text.truthy (newPhone s)).
      * unfold ids in Hx. cbn [contacts] in Hx. rewrite map_app in Hx.
        apply in_app_or in Hx. destruct Hx as [Hx|Hx].
        -- left. apply Hu. exact Hx.
        -- right. exact Hx.
      * left. apply Hu. exact Hx.
    + rewrite <- app_assoc. exact Ht.
  - (* toggle *)
    apply (IH _ used); try assumption.
    + unfold ids. cbn [step toggleContact setContacts contacts].
      rewrite toggle_ids. exact Hn.
    + intros x Hx. apply Hu. unfold ids in Hx.
      cbn [step toggleContact setContacts contacts] in Hx.
      rewrite toggle_ids in Hx. exact Hx.
  - (* remove *)
    apply (IH _ used); try assumption.
    + unfold ids. cbn [step removeContact setContacts contacts].
      apply filter_ids_NoDup. exact Hn.
    + intros x Hx. apply Hu. unfold ids in Hx.
      cbn [step removeContact setContacts contacts] in Hx.
      exact (filter_ids_incl _ _ _ Hx).
Qed.

(** X9: as long as no two clicks on the add button read the same clock
    value, the contacts of the SOS page keep pairwise distinct ids, whatever
    the user types, adds, toggles and removes. *)
Theorem contact_ids_stay_distinct : forall events,
  NoDup (addTimes events) ->
  NoDup (map id (contacts (run events initial))).
Proof.
  intros events H.
  apply (run_keeps_ids_distinct events initial []).
  - constructor.
  - intros x [].
  - exact H.
Qed.

Lemma contact_ids_stay_distinct_witness :
  let events :=
    [ TypeNewName "Asha"; TypeNewPhone "+91 98765 43210"; ClickAdd 1700000000000;
      TypeNewName "Ravi"; TypeNewPhone "12345"; ClickAdd 1700000000001;
      ClickToggle "1700000000000" ] in
  NoDup (addTimes events)
  /\ NoDup (map id (contacts (run events initial))).
Proof.
  intros events.
  assert (H : NoDup (addTimes events)).
  { unfold events. cbn [addTimes flat_map app].
    repeat constructor; simpl; intuition discriminate. }
  split; [exact H | exact (contact_ids_stay_distinct events H)].
Defined.

(** Two adds within the same millisecond do share an id: the assumption on
    the clock is needed, and a toggle then flips both contacts. *)
Example same_clock_same_id :
  let s :=
    run [ TypeNewName "Asha"; TypeNewPhone "1"; ClickAdd 1700000000000;
          TypeNewName "Ravi"; TypeNewPhone "2"; ClickAdd 1700000000000 ]
      initial in
  map id (contacts s) = ["1700000000000"; "1700000000000"]
  /\ map selected (contacts (toggleContact "1700000000000" s)) = [false; false].
Proof. split; vm_compute; reflexivity. Qed.

End ContactProperties.

Section ContactEditing.

Import SOSPage.
Local Open Scope string_scope.

Lemma setContacts_same : forall s, setContacts (contacts s) s = s.
Proof. intros [u a m c n p]. reflexivity. Qed.

Lemma toggle_absent : forall i l,
  ~ In i (map id l) ->
  map
    (fun c =>
       if String.eqb (id c) i then
         {| id := id c; name := name c; phone := phone c;
            selected := negb (selected c) |}
       else c) l
  = l.
Proof.
  intros i l. induction l as [|c l IH]; intros H; [reflexivity|].
  cbn [map]. rewrite IH by (intros Hin; apply H; right; exact Hin).
  destruct (String.eqb_spec (id c) i) as [E|E]; [|reflexivity].
  exfalso. apply H. left. exact E.
Qed.

Lemma selected_count_toggle : forall i l c,
  NoDup (map id l) -> In c l -> id c = i ->
  List.length
    (filter selected
       (map
          (fun d =>
             if String.eqb (id d) i then
               {| id := id d; name := name d; phone := phone d;
                  selected := negb (selected d) |}
             else d) l))
  = if selected c then pred (List.length (filter selected l))
    else S (List.length (filter selected l)).
Proof.
  intros i l c. induction l as [|d l IH]; intros Hn Hin Hc; [destruct Hin|].
  cbn [map id] in Hn. inversion Hn as [|? ? Hd Hl]; subst.
  destruct Hin as [->|Hin].
  - cbn [map]. rewrite String.eqb_refl.
    rewrite toggle_absent by exact Hd.
    cbn [filter selected]. destruct (selected c); reflexivity.
  - cbn [map].
    destruct (String.eqb_spec (id d) (id c)) as [E|E].
    + exfalso. apply Hd. rewrite E. apply in_map. exact Hin.
    + cbn [filter]. specialize (IH Hl Hin eq_refl).
      destruct (selected d); cbn [List.length]; rewrite IH; [|reflexivity].
      destruct (selected c) eqn:Sc; [|reflexivity].
      assert (Hpos : In c (filter selected l))
        by (apply filter_In; split; assumption).
      destruct (filter selected l); [destruct Hpos | reflexivity].
Qed.

(** X10: ticking a contact's checkbox twice restores the page state; ticking
    an id that no contact has changes nothing; and when the ids are distinct,
    ticking a listed contact changes the number of SOS links by exactly one
    (one fewer if it was selected, one more if it was not) while the order,
    names and phone numbers of the contacts stay as they were. *)
Theorem toggle_contact_flips_one : forall i s,
  toggleContact i (toggleContact i s) = s
  /\ (~ In i (map id (contacts s)) -> toggleContact i s = s)
  /\ map (fun c => (id c, name c, phone c)) (contacts (toggleContact i s))
     = map (fun c => (id c, name c, phone c)) (contacts s)
  /\ (forall c,
        NoDup (map id (contacts s)) -> In c (contacts s) -> id c = i ->
        List.length (sosLinks (toggleContact i s))
        = if selected c then pred (List.length (sosLinks s))
          else S (List.length (sosLinks s))).
Proof.
  intros i s. split; [|split; [|split]].
  - destruct s as [u a m l n p].
    unfold toggleContact, setContacts. cbn [contacts userName area mapsLink newName newPhone].
    f_equal. rewrite map_map. rewrite <- (map_id l) at 2.
    apply map_ext. intros [ci cn cp cs]. cbn [id name phone selected].
    destruct (String.eqb ci i) eqn:E; cbn [id name phone selected].
    + rewrite E. rewrite negb_involutive. reflexivity.
    + rewrite E. reflexivity.
  - intros H. unfold toggleContact. rewrite toggle_absent by exact H.
    apply setContacts_same.
  - unfold toggleContact. cbn [setContacts contacts]. rewrite map_map.
    apply map_ext. intros c. destruct (String.eqb (id c) i); reflexivity.
  - intros c Hn Hin Hc. unfold sosLinks, selectedContacts.
    rewrite !length_map. unfold toggleContact. cbn [setContacts contacts].
    apply selected_count_toggle; assumption.
Qed.

Lemma toggle_contact_flips_one_witness :
  let s :=
    run [TypeNewName "Asha"; TypeNewPhone "98765"; ClickAdd 1700000000000;
         TypeNewName "Ravi"; TypeNewPhone "12345"; ClickAdd 1700000000001]
      initial in
  let c :=
    {| id := "1700000000001"; name := "Ravi"; phone := "12345";
       selected := true |} in
  NoDup (map id (contacts s)) /\ In c (contacts s)
  /\ List.length (sosLinks s) = 2%nat
  /\ List.length (sosLinks (toggleContact "1700000000001" s)) = 1%nat.
Proof.
  intros s c.
  assert (Hn : NoDup (map id (contacts s))).
  { unfold s. cbn. repeat constructor; simpl; intuition discriminate. }
  assert (Hin : In c (contacts s)) by (right; left; reflexivity).
  split; [exact Hn | split; [exact Hin | split; [reflexivity|]]].
  exact (proj2 (proj2 (proj2 (toggle_contact_flips_one "1700000000001" s)))
           c Hn Hin eq_refl).
Defined.

Lemma remove_filter_In : forall i l (d : Contact),
  In d (filter (fun c => negb (String.eqb (id c) i)) l)
  <-> In d l /\ id d <> i.
Proof.
  intros i l d. rewrite filter_In.
  destruct (String.eqb_spec (id d) i) as [E|E]; cbn [negb]; intuition congruence.
Qed.

Lemma filter_filter : forall (A : Type) (f g : A -> bool) l,
  filter f (filter g l) = filter (fun x => g x && f x) l.
Proof.
  intros A f g l. induction l as [|x l IH]; [reflexivity|].
  cbn [filter]. destruct (g x); cbn [filter andb]; [destruct (f x)|];
    rewrite IH; reflexivity.
Qed.

Lemma filter_all : forall (A : Type) (f : A -> bool) l,
  (forall x, In x l -> f x = true) -> filter f l = l.
Proof.
  intros A f l. induction l as [|x l IH]; intros H; [reflexivity|].
  cbn [filter]. rewrite (H x (or_introl eq_refl)).
  rewrite IH by (intros y Hy; apply H; right; exact Hy). reflexivity.
Qed.

(** X11: removing a contact deletes exactly the contacts with that id and
    keeps the others in order: the removal goes contact by contact (on a
    list made of two parts it gives the two results one after the other,
    and a single contact stays unless it has the id) and leaves the rest of
    the page state alone.  The SOS links that remain are those of the
    selected contacts with another id.  Removing an id nobody has changes
    nothing, removing twice is removing once, removals commute, and a
    removal makes an earlier tick of the same checkbox irrelevant. *)
Theorem remove_contact_deletes_by_id : forall i s,
  (forall d, In d (contacts (removeContact i s))
             <-> In d (contacts s) /\ id d <> i)
  /\ (forall l1 l2,
        contacts (removeContact i (setContacts (l1 ++ l2) s))
        = (contacts (removeContact i (setContacts l1 s))
           ++ contacts (removeContact i (setContacts l2 s)))%list)
  /\ (forall c,
        contacts (removeContact i (setContacts [c] s))
        = if String.eqb (id c) i then [] else [c])
  /\ removeContact i s = setContacts (contacts (removeContact i s)) s
  /\ sosLinks (removeContact i s)
     = map
         (fun c =>
            (SOS.getWhatsAppLink (userName s) (area s) (mapsLink s) (phone c),
             name c))
         (filter (fun c => negb (String.eqb (id c) i)) (selectedContacts s))
  /\ (~ In i (map id (contacts s)) -> removeContact i s = s)
  /\ removeContact i (removeContact i s) = removeContact i s
  /\ (forall j, removeContact i (removeContact j s)
                = removeContact j (removeContact i s))
  /\ removeContact i (toggleContact i s) = removeContact i s.
Proof.
  intros i s. split; [|split; [|split; [|split; [|split; [|split; [|split; [|split]]]]]]].
  - intros d. unfold removeContact. cbn [setContacts contacts].
    apply remove_filter_In.
  - intros l1 l2. unfold removeContact. cbn [setContacts contacts].
    apply filter_app.
  - intros c. unfold removeContact. cbn [setContacts contacts filter].
    destruct (String.eqb (id c) i); reflexivity.
  - unfold removeContact, setContacts.
    cbn [contacts userName area mapsLink newName newPhone]. reflexivity.
  - unfold sosLinks, selectedContacts, removeContact.
    cbn [setContacts contacts userName area mapsLink].
    rewrite !filter_filter. f_equal. apply filter_ext.
    intros c. apply andb_comm.
  - intros H. unfold removeContact. rewrite filter_all; [apply setContacts_same|].
    intros c Hc. destruct (String.eqb_spec (id c) i) as [E|E]; [|reflexivity].
    exfalso. apply H. rewrite <- E. apply in_map. exact Hc.
  - unfold removeContact, setContacts.
    cbn [contacts userName area mapsLink newName newPhone].
    f_equal. rewrite filter_filter. apply filter_ext.
    intros c. apply andb_diag.
  - intros j. unfold removeContact, setContacts.
    cbn [contacts userName area mapsLink newName newPhone].
    f_equal. rewrite !filter_filter. apply filter_ext.
    intros c. apply andb_comm.
  - unfold removeContact, toggleContact, setContacts.
    cbn [contacts userName area mapsLink newName newPhone].
    f_equal. induction (contacts s) as [|c l IH]; [reflexivity|].
    cbn [map filter].
    destruct (String.eqb (id c) i) eqn:E; cbn [id]; rewrite E; cbn [negb];
      rewrite IH; reflexivity.
Qed.

(** X12: the add button does nothing while the name or the phone field is
    empty.  Otherwise it appends one selected contact with the typed name and
    phone, clears both fields and adds that contact's link at the end of the
    SOS panel.  In both cases a second click without typing adds nothing. *)
Theorem add_contact_needs_name_and_phone : forall now s,
  (newName s = "" \/ newPhone s = "" -> addContact now s = s)
  /\ (newName s <> "" -> newPhone s <> "" ->
      contacts (addContact now s)
      = (contacts s
         ++ [ {| id := Text.toString now; name := newName s;
                 phone := newPhone s; selected := true |} ])%list
      /\ newName (addContact now s) = ""
      /\ newPhone (addContact now s) = ""
      /\ sosLinks (addContact now s)
         = (sosLinks s
            ++ [ (SOS.getWhatsAppLink (userName s) (area s) (mapsLink s)
                    (newPhone s),
                  newName s) ])%list)
  /\ (forall now', addContact now' (addContact now s) = addContact now s).
Proof.
  intros now s. split; [|split].
  - unfold addContact. intros [E|E]; rewrite E; cbn [Text.truthy andb];
      [reflexivity|]. rewrite andb_false_r. reflexivity.
  - intros Hn Hp. unfold addContact.
    destruct (newName s) as [|a n] eqn:En; [contradiction Hn; reflexivity|].
    destruct (newPhone s) as [|b p] eqn:Ep; [contradiction Hp; reflexivity|].
    cbn [Text.truthy andb contacts newName newPhone].
    repeat split.
    unfold sosLinks, selectedContacts.
    cbn [contacts userName area mapsLink].
    rewrite filter_app, map_app. reflexivity.
  - intros now'.
    destruct (Text.truthy (newName s) && Text.truthy (newPhone s)) eqn:E.
    + assert (B : newName (addContact now s) = "")
        by (unfold addContact; rewrite E; reflexivity).
      unfold addContact at 1. rewrite B. reflexivity.
    + assert (B : forall t, addContact t s = s)
        by (intros t; unfold addContact; rewrite E; reflexivity).
      rewrite !B. reflexivity.
Qed.

Lemma add_contact_needs_name_and_phone_witness :
  let s := run [TypeNewName "Asha"; TypeNewPhone "+91 98765 43210"] initial in
  newName s <> "" /\ newPhone s <> ""
  /\ sosLinks (addContact 1700000000000 s)
     = (sosLinks s
        ++ [ (SOS.getWhatsAppLink (userName s) (area s) (mapsLink s)
                (newPhone s),
              newName s) ])%list.
Proof.
  intros s.
  assert (Hn : newName s <> "") by (unfold s; cbn; discriminate).
  assert (Hp : newPhone s <> "") by (unfold s; cbn; discriminate).
  split; [exact Hn | split; [exact Hp|]].
  exact (proj2 (proj2 (proj2
    (proj1 (proj2 (add_contact_needs_name_and_phone 1700000000000 s)) Hn Hp)))).
Defined.

(** X13: adding a contact and removing it again gives back the contact list,
    provided the id taken from the clock is not already in use. *)
Theorem add_then_remove_restores_contacts : forall now s,
  ~ In (Text.toString now) (map id (contacts s)) ->
  contacts (removeContact (Text.toString now) (addContact now s)) = contacts s
  /\ sosLinks (removeContact (Text.toString now) (addContact now s))
     = sosLinks s.
Proof.
  intros now s H.
  assert (E : contacts (removeContact (Text.toString now) (addContact now s))
              = contacts s).
  { unfold removeContact. cbn [setContacts contacts]. unfold addContact.
    destruct (Text.truthy (newName s) && Text.truthy (newPhone s)).
    - cbn [contacts]. rewrite filter_app. cbn [filter id].
      rewrite String.eqb_refl. cbn [negb]. rewrite app_nil_r.
      apply filter_all. intros c Hc.
      destruct (String.eqb_spec (id c) (Text.toString now)) as [E|E];
        [|reflexivity].
      exfalso. apply H. rewrite <- E. apply in_map. exact Hc.
    - apply filter_all. intros c Hc.
      destruct (String.eqb_spec (id c) (Text.toString now)) as [E|E];
        [|reflexivity].
      exfalso. apply H. rewrite <- E. apply in_map. exact Hc. }
  split; [exact E|].
  unfold sosLinks, selectedContacts. rewrite E.
  unfold removeContact, addContact.
  destruct (Text.truthy (newName s) && Text.truthy (newPhone s)); reflexivity.
Qed.

Lemma add_then_remove_restores_contacts_witness :
  let s :=
    run [TypeNewName "Asha"; TypeNewPhone "98765"; ClickAdd 1700000000000;
         TypeNewName "Ravi"; TypeNewPhone "12345"] initial in
  ~ In (Text.toString 1700000000001) (map id (contacts s))
  /\ contacts (removeContact (Text.toString 1700000000001)
                 (addContact 1700000000001 s))
     = contacts s.
Proof.
  intros s.
  assert (H : ~ In (Text.toString 1700000000001) (map id (contacts s))).
  { unfold s. cbn. intros [E|[]]. discriminate E. }
  split; [exact H|].
  exact (proj1 (add_then_remove_restores_contacts 1700000000001 s H)).
Defined.

Lemma run_contacts_from_form : forall events s,
  (forall c, In c (contacts s) -> name c <> "" /\ phone c <> "") ->
  forall c, In c (contacts (run events s)) ->
    name c <> "" /\ phone c <> "".
Proof.
  induction events as [|e events IH]; intros s Hs c Hc; [exact (Hs c Hc)|].
  cbn [run fold_left] in Hc.
  change (fold_left step events (step s e)) with (run events (step s e)) in Hc.
  apply (IH (step s e)); [|exact Hc].
  clear c Hc IH. intros c Hc.
  destruct e as [v|v|v|v|v|now|i|i]; try exact (Hs c Hc).
  - cbn [step] in Hc. unfold addContact in Hc.
    destruct (newName s) as [|a n] eqn:En; [exact (Hs c Hc)|].
    destruct (newPhone s) as [|b p] eqn:Ep; [exact (Hs c Hc)|].
    cbn [Text.truthy andb contacts] in Hc. apply in_app_or in Hc.
    destruct Hc as [Hc|[<-|[]]]; [exact (Hs c Hc)|].
    cbn [name phone]. split; discriminate.
  - cbn [step toggleContact setContacts contacts] in Hc.
    apply in_map_iff in Hc. destruct Hc as (d & Hd & Hin).
    destruct (Hs d Hin) as [Hn Hp].
    destruct (String.eqb (id d) i); subst c; cbn [name phone]; split; assumption.
  - cbn [step removeContact setContacts contacts] in Hc.
    apply filter_In in Hc. exact (Hs c (proj1 Hc)).
Qed.

(** X14: however the page is used, every contact in the list, and so every
    SOS button, has a non-empty name and a non-empty phone text. *)
Theorem contacts_have_name_and_phone : forall events c,
  In c (contacts (run events initial)) ->
  name c <> "" /\ phone c <> "".
Proof.
  intros events c H.
  apply (run_contacts_from_form events initial); [|exact H].
  intros d [].
Qed.

Lemma contacts_have_name_and_phone_witness :
  let events :=
    [TypeNewPhone "98765"; ClickAdd 1; TypeNewName "Asha"; ClickAdd 2] in
  let c := {| id := "2"; name := "Asha"; phone := "98765"; selected := true |} in
  In c (contacts (run events initial)) /\ name c <> "" /\ phone c <> "".
Proof.
  intros events c.
  assert (H : In c (contacts (run events initial))) by (left; reflexivity).
  split; [exact H | exact (contacts_have_name_and_phone events c H)].
Defined.

End ContactEditing.

(* ------------------------------------------------------------------ *)
(** ** The simulation page *)
(* ------------------------------------------------------------------ *)

Section SliderOrder.

Import SliderChecks.
Local Open Scope float_scope.

Lemma SFltb_trans : forall x y z,
  SFltb x y = true -> SFltb y z = true -> SFltb x z = true.
Proof.
  intros x y z. unfold SFltb, SFcompare.
  destruct x as [[]|[]| |[] mx ex]; destruct y as [[]|[]| |[] my ey];
    try discriminate; destruct z as [[]|[]| |[] mz ez];
    try discriminate; try reflexivity;
    change (Pos.compare_cont Eq) with Pos.compare;
    repeat match goal with
    | |- context [(?a ?= ?b)%Z] => destruct (Z.compare_spec a b)
    | |- context [(?a ?= ?b)%positive] => destruct (Pos.compare_spec a b)
    end; cbn [CompOpp]; try discriminate; try reflexivity; intros; subst; lia.
Qed.

Lemma ltb_trans : forall a b c,
  (a <? b) = true -> (b <? c) = true -> (a <? c) = true.
Proof. intros a b c. rewrite !ltb_spec. apply SFltb_trans. Qed.

Lemma chain_Sorted : forall (A : Type) (r : A -> A -> bool) l,
  chain r l = true -> Sorted (fun a b => r a b = true) l.
Proof.
  intros A r l. induction l as [|a l IH]; intros H; [constructor|].
  destruct l as [|b l]; [repeat constructor|].
  cbn [chain] in H. destruct (r a b) eqn:E; [|discriminate].
  constructor; [apply IH; exact H | constructor; exact E].
Qed.

(** A function checked on neighbours of an ascending list keeps the order
    of any two of its elements. *)
Lemma monotone_on_chain : forall (f : float -> float)
    (le : float -> float -> bool) l,
  (forall x y z, le x y = true -> le y z = true -> le x z = true) ->
  chain (fun a b => (a <? b) && le (f a) (f b)) l = true ->
  (forall a, In a l -> le (f a) (f a) = true) ->
  forall a b, In a l -> In b l -> (a <=? b) = true -> le (f a) (f b) = true.
Proof.
  intros f le l Tr Hc Hr.
  apply chain_Sorted in Hc. apply Sorted_StronglySorted in Hc.
  2:{ intros x y z Hxy Hyz.
      apply andb_prop in Hxy. apply andb_prop in Hyz.
      destruct Hxy as [L1 M1]. destruct Hyz as [L2 M2].
      rewrite (ltb_trans _ _ _ L1 L2), (Tr _ _ _ M1 M2). reflexivity. }
  induction Hc as [|x l Hs IH Hx]; intros a b Ha Hb Hab; [destruct Ha|].
  assert (Hr' : forall a, In a l -> le (f a) (f a) = true)
    by (intros c Hc'; apply Hr; right; exact Hc').
  rewrite Forall_forall in Hx.
  destruct Ha as [<-|Ha]; destruct Hb as [<-|Hb].
  - apply Hr. left; reflexivity.
  - apply Hx in Hb. apply andb_prop in Hb. apply Hb.
  - apply Hx in Ha. apply andb_prop in Ha. destruct Ha as [Lt _].
    destruct (leb_not_nan _ _ Hab) as [Na Nx].
    rewrite (leb_ltb _ _ Na Nx), Lt in Hab. discriminate.
  - apply IH; assumption.
Qed.

Lemma stages_checked :
  stage_ok 0 Rape = true /\ stage_ok 1 AssaultOnWomen = true
  /\ stage_ok 2 KidnappingAndAbduction = true
  /\ stage_ok 3 DomesticViolence = true
  /\ stage_ok 4 WomenTrafficking = true.
Proof. vm_compute. repeat split. Qed.

Lemma score_order_checked : score_order_ok (stage 5) = true.
Proof. vm_compute. reflexivity. Qed.

(** One step of the reduction keeps the order in both of its arguments. *)
Lemma stage_step : forall n crime,
  stage_ok n crime = true ->
  forall a a' x x',
    In a (stage n) -> In a' (stage n) ->
    In x Simulation.sliderPositions -> In x' Simulation.sliderPositions ->
    (a <=? a') = true -> (x <=? x') = true ->
    (a + x * weights crime <=? a' + x' * weights crime) = true.
Proof.
  intros n crime H a a' x x' Ha Ha' Hx Hx' Haa Hxx.
  unfold stage_ok in H. cbv zeta in H. apply andb_prop in H.
  destruct H as [Hacc Hval]. unfold acc_ok in Hacc. unfold value_ok in Hval.
  pose proof (fun c => all_ok_In _ _ c Hacc) as Hacc'. cbv beta in Hacc'.
  pose proof (fun c => all_ok_In _ _ c Hval) as Hval'. cbv beta in Hval'.
  apply leb_trans with (b := a' + x * weights crime).
  - specialize (Hacc' x Hx). apply andb_prop in Hacc'.
    destruct Hacc' as [Hc Hr].
    apply (monotone_on_chain (fun a => a + x * weights crime) PrimFloat.leb
             (stage n) leb_trans Hc); try assumption.
    intros c Hc'. exact (all_ok_In _ _ c Hr Hc').
  - apply (monotone_on_chain (fun v => a' + v * weights crime) PrimFloat.leb
             Simulation.sliderPositions leb_trans (Hval' a' Ha'));
      try assumption.
    intros v Hv. specialize (Hacc' v Hv). apply andb_prop in Hacc'.
    exact (all_ok_In _ _ a' (proj2 Hacc') Ha').
Qed.

Lemma stage_next : forall n crime a value,
  nth_error CRIME_TYPES n = Some crime ->
  In a (stage n) -> In value Simulation.sliderPositions ->
  In (a + value * weights crime) (stage (S n)).
Proof.
  intros n crime a value Hn Ha Hv.
  assert (E : stage (S n) = Reach.image (stage n) (weights crime)).
  { unfold stage, CRIME_TYPES in *.
    do 5 (destruct n as [|n];
          [ cbn [nth_error] in Hn; injection Hn as <-;
            cbn [firstn fold_left]; reflexivity |]).
    destruct n; discriminate Hn. }
  rewrite E. apply image_in; assumption.
Qed.

Lemma riskOf_order : forall s s',
  (s <=? s') = true ->
  (riskOf s = Low -> riskOf s' = Low) /\ (riskOf s' = High -> riskOf s = High).
Proof.
  intros s s' H. unfold riskOf, ge.
  pose proof (fun c (Hc : (c <=? s) = true) => leb_trans c s s' Hc H) as T.
  destruct (70 <=? s) eqn:E70.
  - rewrite (T 70 E70). split; intros; congruence.
  - destruct (40 <=? s) eqn:E40.
    + rewrite (T 40 E40). destruct (70 <=? s'); split; intros; congruence.
    + destruct (70 <=? s'); [|destruct (40 <=? s')];
        split; intros; congruence.
Qed.

Lemma weightedSum_steps : forall v,
  weightedSum v
  = 0 + vRape v * weights Rape
    + vAssaultOnWomen v * weights AssaultOnWomen
    + vKidnappingAndAbduction v * weights KidnappingAndAbduction
    + vDomesticViolence v * weights DomesticViolence
    + vWomenTrafficking v * weights WomenTrafficking.
Proof. intros v. reflexivity. Qed.

(** Over a checked list of weighted sums, a larger sum never gives a larger
    score. *)
Lemma score_order : forall l,
  score_order_ok l = true ->
  forall ws ws',
    In ws l -> In ws' l -> (ws <=? ws') = true ->
    (Math_round (100 - ws') <=? Math_round (100 - ws)) = true.
Proof.
  intros l C ws ws' H H' L.
  unfold score_order_ok in C.
  apply andb_prop in C. destruct C as [Cc Cr].
  apply (monotone_on_chain (fun ws => Math_round (100 - ws))
           (fun x y => y <=? x) l
           (fun x y z Hxy Hyz => leb_trans z y x Hyz Hxy) Cc
           (fun a Hin => all_ok_In _ _ a Cr Hin) ws ws' H H' L).
Qed.

(** X15: on the sliders of the simulation page, raising crime values never
    lowers the weighted sum, never raises the projected score and never
    improves the risk level: the rounding of the binary64 operations does
    not break the order. *)
Theorem raising_sliders_never_raises_score : forall v v',
  Simulation.fromSliders v -> Simulation.fromSliders v' -> noneHigher v v' ->
  (weightedSum v <=? weightedSum v') = true
  /\ (sim_score (simulateSafetyScore v')
      <=? sim_score (simulateSafetyScore v)) = true
  /\ (sim_riskLevel (simulateSafetyScore v') = Low ->
      sim_riskLevel (simulateSafetyScore v) = Low)
  /\ (sim_riskLevel (simulateSafetyScore v) = High ->
      sim_riskLevel (simulateSafetyScore v') = High).
Proof.
  intros v v' (Hr & Ha & Hk & Hd & Ht) (Hr' & Ha' & Hk' & Hd' & Ht')
    (Lr & La & Lk & Ld & Lt).
  destruct stages_checked as (C0 & C1 & C2 & C3 & C4).
  assert (S0 : In 0 (stage 0)) by (left; reflexivity).
  pose proof (stage_next 0 Rape _ _ eq_refl S0 Hr) as S1.
  pose proof (stage_next 0 Rape _ _ eq_refl S0 Hr') as S1'.
  pose proof (stage_next 1 AssaultOnWomen _ _ eq_refl S1 Ha) as S2.
  pose proof (stage_next 1 AssaultOnWomen _ _ eq_refl S1' Ha') as S2'.
  pose proof (stage_next 2 KidnappingAndAbduction _ _ eq_refl S2 Hk) as S3.
  pose proof (stage_next 2 KidnappingAndAbduction _ _ eq_refl S2' Hk') as S3'.
  pose proof (stage_next 3 DomesticViolence _ _ eq_refl S3 Hd) as S4.
  pose proof (stage_next 3 DomesticViolence _ _ eq_refl S3' Hd') as S4'.
  pose proof (stage_next 4 WomenTrafficking _ _ eq_refl S4 Ht) as S5.
  pose proof (stage_next 4 WomenTrafficking _ _ eq_refl S4' Ht') as S5'.
  assert (L0 : (0 <=? 0) = true) by reflexivity.
  pose proof (stage_step 0 Rape C0 _ _ _ _ S0 S0 Hr Hr' L0 Lr) as L1.
  pose proof (stage_step 1 AssaultOnWomen C1 _ _ _ _ S1 S1' Ha Ha' L1 La) as L2.
  pose proof (stage_step 2 KidnappingAndAbduction C2 _ _ _ _ S2 S2' Hk Hk' L2 Lk)
    as L3.
  pose proof (stage_step 3 DomesticViolence C3 _ _ _ _ S3 S3' Hd Hd' L3 Ld) as L4.
  pose proof (stage_step 4 WomenTrafficking C4 _ _ _ _ S4 S4' Ht Ht' L4 Lt) as L5.
  unfold simulateSafetyScore. cbv zeta. cbn [sim_score sim_riskLevel].
  rewrite (weightedSum_steps v), (weightedSum_steps v').
  pose proof (score_order _ score_order_checked _ _ S5 S5' L5) as Sc.
  split; [exact L5 | split; [exact Sc|]].
  exact (riskOf_order _ _ Sc).
Qed.

Lemma raising_sliders_never_raises_score_witness :
  let v :=
    {| vRape := 87; vAssaultOnWomen := 9; vKidnappingAndAbduction := 97;
       vDomesticViolence := 61; vWomenTrafficking := 29 |} in
  let v' :=
    {| vRape := 88; vAssaultOnWomen := 9; vKidnappingAndAbduction := 97;
       vDomesticViolence := 61; vWomenTrafficking := 29 |} in
  Simulation.fromSliders v /\ Simulation.fromSliders v' /\ noneHigher v v'
  /\ (sim_score (simulateSafetyScore v')
      <=? sim_score (simulateSafetyScore v)) = true.
Proof.
  intros v v'.
  assert (P : forall n, (n <= 100)%nat -> In (N2F n) Simulation.sliderPositions).
  { intros n Hn. unfold Simulation.sliderPositions. apply in_map.
    apply in_seq. lia. }
  assert (Hv : Simulation.fromSliders v).
  { repeat split;
      [ exact (P 87%nat ltac:(lia)) | exact (P 9%nat ltac:(lia))
      | exact (P 97%nat ltac:(lia)) | exact (P 61%nat ltac:(lia))
      | exact (P 29%nat ltac:(lia)) ]. }
  assert (Hv' : Simulation.fromSliders v').
  { repeat split;
      [ exact (P 88%nat ltac:(lia)) | exact (P 9%nat ltac:(lia))
      | exact (P 97%nat ltac:(lia)) | exact (P 61%nat ltac:(lia))
      | exact (P 29%nat ltac:(lia)) ]. }
  assert (Hle : noneHigher v v') by (repeat split; reflexivity).
  split; [exact Hv | split; [exact Hv' | split; [exact Hle|]]].
  exact (proj1 (proj2 (raising_sliders_never_raises_score v v' Hv Hv' Hle))).
Defined.

End SliderOrder.

Section SimulationPageProperties.

Import SimulationPage.
Local Open Scope float_scope.

Lemma assign_fromSliders : forall crime value v,
  Simulation.fromSliders v -> In value Simulation.sliderPositions ->
  Simulation.fromSliders (assign crime value v).
Proof.
  intros crime value v (Hr & Ha & Hk & Hd & Ht) Hv.
  destruct crime; unfold Simulation.fromSliders, assign;
    cbn [vRape vAssaultOnWomen vKidnappingAndAbduction vDomesticViolence
         vWomenTrafficking];
    (split; [|split; [|split; [|split]]]); assumption.
Qed.

Lemma valueOf_assign : forall crime crime' value v,
  valueOf crime' (assign crime value v)
  = if sameKey crime crime' then value else valueOf crime' v.
Proof. intros [] [] value v; reflexivity. Qed.

Lemma run_app : forall events events' s,
  run (events ++ events') s = run events' (run events s).
Proof. intros events events' s. apply fold_left_app. Qed.

Lemma moves_keep_result : forall moves s,
  forallb isMove moves = true -> result (run moves s) = result s.
Proof.
  induction moves as [|e moves IH]; intros s H; [reflexivity|].
  cbn [forallb] in H. apply andb_prop in H. destruct H as [He Hm].
  cbn [run fold_left].
  change (fold_left step moves (step s e)) with (run moves (step s e)).
  rewrite (IH _ Hm). destruct e; try discriminate He. reflexivity.
Qed.

Lemma run_shown_from_sliders : forall events s,
  Forall fromSlider events -> shown_from_sliders s ->
  shown_from_sliders (run events s).
Proof.
  induction events as [|e events IH]; intros s He Hs; [exact Hs|].
  inversion He as [|? ? H1 H2]; subst.
  cbn [run fold_left].
  change (fold_left step events (step s e)) with (run events (step s e)).
  apply IH; [exact H2|]. destruct Hs as [Hv Hr].
  destruct e as [crime value| |]; cbn [step].
  - split; [apply assign_fromSliders; assumption | exact Hr].
  - split; [exact Hv|]. cbn [handleSimulate result]. intros r E.
    injection E as <-. exists (crimeValues s). split; [exact Hv | reflexivity].
  - split; [exact default_values_from_sliders | intros r E; discriminate E].
Qed.

(** X16: however the sliders are moved and the buttons clicked, every crime
    value of the simulation page is a slider position, and a result on
    display is a number from 0 to 100 with the risk level and the
    interpretation of that number. *)
Theorem simulation_page_stays_in_range : forall events,
  Forall fromSlider events ->
  Simulation.fromSliders (crimeValues (run events initial))
  /\ forall r, result (run events initial) = Some r ->
       is_nan (sim_score r) = false
       /\ (0 <=? sim_score r) = true /\ (sim_score r <=? 100) = true
       /\ sim_riskLevel r = riskOf (sim_score r)
       /\ interpretation r = interpretations (sim_riskLevel r).
Proof.
  intros events He.
  destruct (run_shown_from_sliders events initial He) as [Hv Hr].
  { split; [exact default_values_from_sliders | intros r E; discriminate E]. }
  split; [exact Hv|]. intros r E.
  destruct (Hr r E) as (v & Hfs & ->).
  pose proof (all_ok_In _ _ _ reachable_scores_checked
                (weightedSum_reachable v Hfs)) as H.
  unfold Reach.slider_score_ok, Thresholds.in_range in H.
  apply andb_prop in H. destruct H as [H _].
  apply andb_prop in H. destruct H as [Hn H].
  apply andb_prop in H. destruct H as [H0 H100].
  apply negb_true_iff in Hn.
  unfold simulateSafetyScore. cbv zeta.
  cbn [sim_score sim_riskLevel interpretation].
  repeat split; assumption.
Qed.

Lemma simulation_page_stays_in_range_witness :
  let events :=
    [MoveSlider Rape 87; MoveSlider WomenTrafficking 29; ClickSimulate;
     MoveSlider Rape 100] in
  Forall fromSlider events
  /\ Simulation.fromSliders (crimeValues (run events initial)).
Proof.
  intros events.
  assert (P : forall n, (n <= 100)%nat -> In (N2F n) Simulation.sliderPositions).
  { intros n Hn. unfold Simulation.sliderPositions. apply in_map.
    apply in_seq. lia. }
  assert (He : Forall fromSlider events).
  { unfold events.
    constructor; [exact (P 87%nat ltac:(lia))|].
    constructor; [exact (P 29%nat ltac:(lia))|].
    constructor; [exact I|].
    constructor; [exact (P 100%nat ltac:(lia)) | constructor]. }
  split; [exact He | exact (proj1 (simulation_page_stays_in_range events He))].
Defined.

(** X17: the result on display is the simulation of the crime values as
    they were at the last click on the simulate button: moving sliders
    afterwards changes the values, one crime at a time, but not the result.
    The reset button brings back the initial page. *)
Theorem simulation_result_is_of_last_click : forall events moves s,
  forallb isMove moves = true ->
  result (run (events ++ ClickSimulate :: moves) s)
  = Some (simulateSafetyScore (crimeValues (run events s)))
  /\ result (run moves s) = result s
  /\ run (events ++ [ClickReset]) s = initial
  /\ (forall crime value crime',
        valueOf crime'
          (crimeValues (run (events ++ [MoveSlider crime value]) s))
        = if sameKey crime crime' then value
          else valueOf crime' (crimeValues (run events s))).
Proof.
  intros events moves s Hm. split; [|split; [|split]].
  - rewrite run_app.
    change (run (ClickSimulate :: moves) (run events s))
      with (run moves (handleSimulate (run events s))).
    rewrite (moves_keep_result _ _ Hm). reflexivity.
  - exact (moves_keep_result _ _ Hm).
  - rewrite run_app. reflexivity.
  - intros crime value crime'. rewrite run_app.
    cbn [run fold_left step handleSliderChange crimeValues].
    apply valueOf_assign.
Qed.

Lemma simulation_result_is_of_last_click_witness :
  let moves := [MoveSlider Rape 100; MoveSlider DomesticViolence 100] in
  forallb isMove moves = true
  /\ result (run ([MoveSlider Rape 0] ++ ClickSimulate :: moves) initial)
     = Some (simulateSafetyScore
               (crimeValues (run [MoveSlider Rape 0] initial))).
Proof.
  intros moves.
  assert (Hm : forallb isMove moves = true) by reflexivity.
  split; [exact Hm|].
  exact (proj1 (simulation_result_is_of_last_click
                  [MoveSlider Rape 0] moves initial Hm)).
Defined.

End SimulationPageProperties.

(* ------------------------------------------------------------------ *)
(** ** The client of the REST service *)
(* ------------------------------------------------------------------ *)

Section ApiProperties.

Import ApiClient UseApi.
Local Open Scope string_scope.

(** X18: a call through [apiFetch] is fulfilled with the parsed body or
    rejected with an [Error]: never with another value, so a hook shows the
    data or the message of that error and never its own fallback text for
    a rejection it did not expect.  A rejection of [fetch] that is not an
    [Error] is reported as an unknown error.  On a failure status the
    message is the detail of the body when that is truthy, the status line
    when the detail is missing or falsy, and the message of the [TypeError]
    when the body is [null] and has no property to read. *)
Theorem api_failures_carry_a_message :
  forall (Json : Type) (detail : Json -> Detail)
         (VITE_API_URL : string) (fetch : string -> Settled (Response Json))
         (endpoint : string),
  ((exists v,
      apiFetch Json detail VITE_API_URL fetch endpoint = Fulfilled v
      /\ settled Json (apiFetch Json detail VITE_API_URL fetch endpoint)
         = {| data := Some v; loading := false; error := None |})
   \/ (exists m,
         apiFetch Json detail VITE_API_URL fetch endpoint
         = Rejected (ErrorValue m)
         /\ settled Json (apiFetch Json detail VITE_API_URL fetch endpoint)
            = {| data := None; loading := false; error := Some m |}))
  /\ (fetch (API_BASE_URL VITE_API_URL ++ endpoint) = Rejected OtherValue ->
      apiFetch Json detail VITE_API_URL fetch endpoint
      = Rejected (ErrorValue "An unknown error occurred"))
  /\ (forall response body,
        fetch (API_BASE_URL VITE_API_URL ++ endpoint) = Fulfilled response ->
        ok response = false -> json response = Fulfilled body ->
        apiFetch Json detail VITE_API_URL fetch endpoint
        = Rejected
            (ErrorValue
               match detail body with
               | Truthy text => text
               | Falsy =>
                   "HTTP " ++ Text.toString (status response) ++ ": "
                   ++ statusText response
               | Throws message => message
               end))
  /\ (forall response,
        fetch (API_BASE_URL VITE_API_URL ++ endpoint) = Fulfilled response ->
        ok response = true ->
        apiFetch Json detail VITE_API_URL fetch endpoint
        = match json response with
          | Rejected OtherValue =>
              Rejected (ErrorValue "An unknown error occurred")
          | settled_body => settled_body
          end).
Proof.
  intros Json detail base fetch endpoint. unfold apiFetch. cbv zeta.
  split; [|split; [|split]].
  - destruct (fetch (API_BASE_URL base ++ endpoint)) as [response|[m|]];
      cbn [await try_catch].
    + destruct (ok response); cbn [negb].
      * destruct (json response) as [v|[m|]]; cbn [await try_catch settled].
        -- left. exists v. split; reflexivity.
        -- right. exists m. split; reflexivity.
        -- right. eexists. split; reflexivity.
      * destruct (json response) as [v|[m|]]; cbn [await try_catch settled].
        -- destruct (detail v); right; eexists; split; reflexivity.
        -- right. exists m. split; reflexivity.
        -- right. eexists. split; reflexivity.
    + right. exists m. split; reflexivity.
    + right. eexists. split; reflexivity.
  - intros ->. reflexivity.
  - intros response body -> Hok Hj. cbn [await]. rewrite Hok, Hj.
    cbn [negb await try_catch]. destruct (detail body); reflexivity.
  - intros response -> Hok. cbn [await]. rewrite Hok. cbn [negb].
    destruct (json response) as [v|[m|]]; reflexivity.
Qed.

Lemma api_failures_carry_a_message_witness :
  let detail := fun body : option (option string) =>
    match body with
    | None => Throws "Cannot read properties of null (reading 'detail')"
    | Some None => Falsy
    | Some (Some text) => Truthy text
    end in
  let reply := fun body =>
    fun _ : string =>
      Fulfilled
        {| ok := false; status := 404; statusText := "Not Found";
           json := Fulfilled body |} in
  apiFetch _ detail "" (reply (Some None)) "/leaderboard?year=1999"
  = Rejected (ErrorValue "HTTP 404: Not Found")
  /\ apiFetch _ detail "" (reply (Some (Some "No data for year 1999")))
       "/leaderboard?year=1999"
     = Rejected (ErrorValue "No data for year 1999")
  /\ apiFetch _ detail "" (reply None) "/leaderboard?year=1999"
     = Rejected
         (ErrorValue "Cannot read properties of null (reading 'detail')").
Proof.
  intros detail reply.
  split; [|split].
  - exact (proj1 (proj2 (proj2
             (api_failures_carry_a_message _ detail "" (reply (Some None))
                "/leaderboard?year=1999")))
             _ (Some None) eq_refl eq_refl eq_refl).
  - exact (proj1 (proj2 (proj2
             (api_failures_carry_a_message _ detail ""
                (reply (Some (Some "No data for year 1999")))
                "/leaderboard?year=1999")))
             _ (Some (Some "No data for year 1999")) eq_refl eq_refl eq_refl).
  - exact (proj1 (proj2 (proj2
             (api_failures_carry_a_message _ detail "" (reply None)
                "/leaderboard?year=1999")))
             _ None eq_refl eq_refl eq_refl).
Defined.

Lemma run_hook_app : forall (T : Type) events events' (s : UseApiState T),
  run T (events ++ events') s = run T events' (run T events s).
Proof. intros T events events' s. apply fold_left_app. Qed.

(** X19: however calls start and settle and errors are cleared, also when
    several calls overlap, the state of a hook has at most one of: data, the
    loading flag, an error.  The loading flag is dropped as soon as any call
    settles, even when a later call is still on its way, and clearing the
    error touches nothing else. *)
Theorem hook_state_shows_one_thing : forall (T : Type) (events : list (Event T)),
  match data (run T events (initial T)), loading (run T events (initial T)),
        error (run T events (initial T)) with
  | None, _, None => True
  | Some _, false, None => True
  | None, false, Some _ => True
  | _, _, _ => False
  end
  /\ (forall outcome,
        loading (run T (events ++ [Start; Start; Settle outcome]) (initial T))
        = false)
  /\ data (run T (events ++ [ClearError]) (initial T))
     = data (run T events (initial T))
  /\ loading (run T (events ++ [ClearError]) (initial T))
     = loading (run T events (initial T)).
Proof.
  intros T events. split; [|split; [|split]].
  - induction events as [|e events IH] using rev_ind; [exact I|].
    rewrite run_hook_app. cbn [run fold_left].
    destruct e as [|[d|[m|]]|]; cbn; try exact I.
    destruct (data (run T events (initial T)));
      destruct (loading (run T events (initial T)));
      destruct (error (run T events (initial T))); try exact I; exact IH.
  - intros [d|[m|]]; rewrite run_hook_app; reflexivity.
  - rewrite run_hook_app. reflexivity.
  - rewrite run_hook_app. reflexivity.
Qed.

(** X20: the leaderboard is asked for without a filter when no year is
    given and also when the year given is 0, so the two calls settle alike;
    every other year gets a query of its own, different from the unfiltered
    one. *)
Theorem leaderboard_year_zero_is_no_filter : forall y y',
  leaderboardEndpoint (Some 0%Z) = leaderboardEndpoint None
  /\ leaderboardEndpoint None = "/leaderboard"
  /\ (forall Json detail VITE_API_URL fetch,
        getLeaderboard Json detail VITE_API_URL fetch (Some 0%Z)
        = getLeaderboard Json detail VITE_API_URL fetch None)
  /\ (y <> 0%Z -> leaderboardEndpoint (Some y) <> leaderboardEndpoint None)
  /\ (y <> 0%Z -> y' <> 0%Z ->
      leaderboardEndpoint (Some y) = leaderboardEndpoint (Some y') -> y = y').
Proof.
  intros y y'.
  split; [reflexivity | split; [reflexivity | split; [reflexivity | split]]].
  - intros Hy H. unfold leaderboardEndpoint in H.
    apply Z.eqb_neq in Hy. rewrite Hy in H.
    apply append_cancel in H. discriminate H.
  - intros Hy Hy' H. unfold leaderboardEndpoint in H.
    apply Z.eqb_neq in Hy. apply Z.eqb_neq in Hy'. rewrite Hy, Hy' in H.
    apply append_cancel in H. apply (append_cancel "?year=") in H.
    apply toString_inj. exact H.
Qed.

Lemma leaderboard_year_zero_is_no_filter_witness :
  2021%Z <> 0%Z /\ 2020%Z <> 0%Z
  /\ leaderboardEndpoint (Some 2021%Z) <> leaderboardEndpoint None.
Proof.
  assert (H : 2021%Z <> 0%Z) by discriminate.
  assert (H' : 2020%Z <> 0%Z) by discriminate.
  split; [exact H | split; [exact H'|]].
  exact (proj1 (proj2 (proj2 (proj2
           (leaderboard_year_zero_is_no_filter 2021 2020)))) H).
Defined.

End ApiProperties.

(* ------------------------------------------------------------------ *)
(** ** The dashboard *)
(* ------------------------------------------------------------------ *)

Section DashboardExample.

Local Open Scope float_scope.

(** The national average shown on the dashboard. *)
Example national_average_2021 :
  Dashboard.getNationalAverageScore = {| score := 79; riskLevel := Low |}.
Proof. vm_compute. reflexivity. Qed.

End DashboardExample.

(* ------------------------------------------------------------------ *)
(** ** The simulation on any object *)
(* ------------------------------------------------------------------ *)

Section ObjectProperties.

Import Thresholds.
Local Open Scope float_scope.

(** C5, as stated, fails: on the documented request the simulation returns
    a score that is not a number, so not 38.6 (the risk level is High). *)
Lemma documented_example_is_not_38_6 :
  is_nan (sim_score (Objects.simulateSafetyScore Objects.documentedRequest))
  = true
  /\ (sim_score (Objects.simulateSafetyScore Objects.documentedRequest)
      =? 38.6) = false
  /\ sim_score (Objects.simulateSafetyScore Objects.documentedRequest) <> 38.6
  /\ sim_riskLevel (Objects.simulateSafetyScore Objects.documentedRequest)
     = High.
Proof.
  split; [vm_compute; reflexivity|].
  split; [vm_compute; reflexivity|].
  split; [|vm_compute; reflexivity].
  intro H.
  pose proof (f_equal (fun x => x =? 38.6) H) as E.
  vm_compute in E. discriminate E.
Qed.

(** C5, amended: none of the eight keys of the documented request is a crime
    type of the simulation, so no entry has a weight and the simulation
    returns NaN as score, with risk level High and the interpretation of
    High.  On the documented counts of the five crime types it has, given
    under its own keys, it returns 18 with risk level High. *)
Theorem documented_example_score :
  Objects.simulateSafetyScore Objects.documentedRequest
  = {| sim_score := nan;
       sim_riskLevel := High;
       interpretation := interpretations High |}
  /\ Forall (fun entry => Objects.get (fst entry) Objects.weights = None)
       Objects.documentedRequest
  /\ Objects.simulateSafetyScore (Objects.ofValues Inputs.documentedExample)
     = {| sim_score := 18;
          sim_riskLevel := High;
          interpretation := interpretations High |}.
Proof.
  split; [vm_compute; reflexivity|].
  split; [repeat constructor | vm_compute; reflexivity].
Qed.










End ObjectProperties.

(* ------------------------------------------------------------------ *)
(** ** State names *)
(* ------------------------------------------------------------------ *)

Section StateNameProperties.

Import Thresholds Ops.
Local Open Scope string_scope.

(** C8, as stated, fails: the enumeration of the mock data has 29 names,
    not 30, and "Atlantis", which is in neither enumeration of state names,
    gets a state/year score and a trend series instead of a failure. *)
Lemma unknown_state_is_answered :
  List.length INDIAN_STATES = 29%nat /\
  ~ In "Atlantis" Api.AVAILABLE_STATES /\
  ~ In "Atlantis" INDIAN_STATES /\
  score_op "Atlantis" 2021
  = Returned {| score := 68; riskLevel := Medium |} /\
  trends_op (fun _ => 0%float) "Atlantis" Rape
  = Returned (getCrimeTrendData (fun _ => 0%float) "Atlantis" Rape) /\
  List.length (getCrimeTrendData (fun _ => 0%float) "Atlantis" Rape) = 21%nat.
Proof.
  split; [reflexivity|].
  split; [apply not_in_by_decision; vm_compute; reflexivity|].
  split; [apply not_in_by_decision; vm_compute; reflexivity|].
  split; [vm_compute; reflexivity|].
  split; reflexivity.
Qed.

(** The score of any name in a year of the data is a number from 40 to
    99. *)
Lemma any_name_is_scored : forall state year,
  In year YEARS ->
  (40 <=? score (calculateSafetyScore state year))%float = true
  /\ (score (calculateSafetyScore state year) <=? 99)%float = true.
Proof.
  intros state year Hy.
  pose proof (YEARS_positive year Hy) as Hpos.
  set (seed := (Z.of_nat (length state) * year)%Z).
  assert (Hk : (0 <= rem seed 50 < 50)%Z).
  { unfold rem. rewrite Z.rem_mod_nonneg by (unfold seed; lia).
    apply Z.mod_pos_bound. lia. }
  pose proof (proj1 (forallb_forall _ _)
                (proj1 (forallb_forall _ _) base_scores_checked year Hy)
                _ (below_In 50 _ Hk)) as C.
  unfold PageChecks.base_score_ok in C.
  apply andb_prop in C. destruct C as [C _].
  apply andb_prop in C. exact C.
Qed.

(** C8, amended: the enumeration of state names of the API service holds
    exactly 30 distinct names; the enumeration of the mock data holds 29 of
    them, all but Jammu & Kashmir.  The scoring and trend functions do not
    look the state up in either: only the length of the name enters the
    result, so a name outside the enumerations is answered like any name of
    the same length, with a score from 40 to 99 in every year of the data
    and a trend series of 21 points; the leaderboard takes no state. *)
Theorem state_names_enumerated_not_checked :
  List.length Api.AVAILABLE_STATES = 30%nat
  /\ NoDup Api.AVAILABLE_STATES
  /\ List.length INDIAN_STATES = 29%nat
  /\ Forall (fun s => In s Api.AVAILABLE_STATES) INDIAN_STATES
  /\ ~ In "Jammu & Kashmir" INDIAN_STATES
  /\ (forall state state' year,
        length state = length state' ->
        score_op state year = score_op state' year)
  /\ (forall Math_sin state state' crimeType,
        length state = length state' ->
        trends_op Math_sin state crimeType
        = trends_op Math_sin state' crimeType)
  /\ (forall state year,
        In year YEARS ->
        exists r,
          score_op state year = Returned r
          /\ (40 <=? score r)%float = true /\ (score r <=? 99)%float = true)
  /\ (forall Math_sin state crimeType,
        exists series,
          trends_op Math_sin state crimeType = Returned series
          /\ List.length series = 21%nat)
  /\ leaderboard_op = Returned getLeaderboardData.
Proof.
  split; [reflexivity|].
  split.
  { assert (E : nodup string_dec Api.AVAILABLE_STATES = Api.AVAILABLE_STATES)
      by (vm_compute; reflexivity).
    rewrite <- E. apply NoDup_nodup. }
  split; [reflexivity|].
  split.
  { apply Forall_forall. intros s Hs.
    assert (C : forallb
                  (fun s => if in_dec string_dec s Api.AVAILABLE_STATES
                            then true else false)
                  INDIAN_STATES = true) by (vm_compute; reflexivity).
    pose proof (proj1 (forallb_forall _ _) C s Hs) as H. cbv beta in H.
    destruct (in_dec string_dec s Api.AVAILABLE_STATES);
      [assumption | discriminate]. }
  split; [apply not_in_by_decision; vm_compute; reflexivity|].
  split.
  { intros state state' year H. unfold score_op, calculateSafetyScore.
    rewrite H. reflexivity. }
  split.
  { intros Math_sin state state' crimeType H.
    unfold trends_op, getCrimeTrendData, trendCounts. rewrite H. reflexivity. }
  split.
  { intros state year Hy. exists (calculateSafetyScore state year).
    split; [reflexivity | exact (any_name_is_scored state year Hy)]. }
  split; [|reflexivity].
  intros Math_sin state crimeType.
  exists (getCrimeTrendData Math_sin state crimeType).
  split; [reflexivity|].
  unfold getCrimeTrendData, withMovingAvg, trendCounts, mapi.
  rewrite !mapi_from_length. reflexivity.
Qed.

Lemma state_names_enumerated_not_checked_witness :
  length "é" = length "a"
  /\ ~ In "é" Api.AVAILABLE_STATES
  /\ score_op "é" 2021 = score_op "a" 2021
  /\ score_op "é" 2021 = Returned {| score := 71; riskLevel := Low |}.
Proof.
  assert (H : length "é" = length "a") by reflexivity.
  split; [exact H|].
  split; [apply not_in_by_decision; vm_compute; reflexivity|].
  split; [|vm_compute; reflexivity].
  exact (proj1 (proj2 (proj2 (proj2 (proj2 (proj2
           state_names_enumerated_not_checked)))))
           "é" "a" 2021%Z H).
Defined.

End StateNameProperties.
